(** * kataras/rewrite: the rewrite engine, embedded and verified

    A shallow embedding of package [rewrite] (rule compilation,
    primary-subdomain canonicalisation, the per-request rule loop and the
    redirect writer) together with the properties its specification
    states about them.

    Go strings are byte strings: they are modelled by [string], one
    [ascii] per byte.  Go's [int] is modelled by [Z].  The packages the
    engine calls but does not own (regexp, net/url, publicsuffix, ...)
    are the fields of the class [GoStd]; the general theorems hold for
    every implementation of that class, and [Sample] gives an executable
    one on which the concrete scenarios are evaluated. *)

From Stdlib Require Import ZArith Ascii String List Bool Lia.
From stdpp Require Import base option list gmap strings.

Set Default Proof Using "Type".
Local Open Scope Z_scope.

(** ** Package strings *)

Module strings.

Definition rev (s : string) : string :=
  string_of_list_ascii (List.rev (list_ascii_of_string s)).

Fixpoint drop (n : nat) (s : string) : string :=
  match n, s with
  | S n', String _ s' => drop n' s'
  | _, _ => s
  end.

(** [strings.HasPrefix(s, prefix)] *)
Definition HasPrefix (s prefix : string) : bool := String.prefix prefix s.

(** [strings.HasSuffix(s, suffix)] *)
Definition HasSuffix (s suffix : string) : bool :=
  String.prefix (rev suffix) (rev s).

(** [strings.TrimPrefix(s, prefix)] *)
Definition TrimPrefix (s prefix : string) : string :=
  if HasPrefix s prefix then drop (String.length prefix) s else s.

(** [strings.TrimSuffix(s, suffix)] *)
Definition TrimSuffix (s suffix : string) : string :=
  if HasSuffix s suffix
  then rev (drop (String.length suffix) (rev s))
  else s.

(** [strings.IndexByte(s, c)]: the index of the first [c], or [-1]. *)
Fixpoint IndexByte (s : string) (c : ascii) : Z :=
  match s with
  | EmptyString => -1
  | String a s' =>
      if Ascii.eqb a c then 0
      else let i := IndexByte s' c in if i <? 0 then -1 else i + 1
  end.

(** [strings.LastIndexByte(s, c)]: the index of the last [c], or [-1]. *)
Fixpoint LastIndexByte (s : string) (c : ascii) : Z :=
  match s with
  | EmptyString => -1
  | String a s' =>
      let i := LastIndexByte s' c in
      if 0 <=? i then i + 1 else if Ascii.eqb a c then 0 else -1
  end.

(** The slice expressions [s[i:]] and [s[:i]] for [0 <= i <= len(s)]. *)
Definition from (s : string) (i : Z) : string := drop (Z.to_nat i) s.
Definition upto (s : string) (i : Z) : string :=
  String.substring 0 (Z.to_nat i) s.

(** [strings.Split(s, sep)] for a separator of one byte, which is the
    only way the engine calls it ([" "]).  Every occurrence of the
    separator cuts; the empty string splits into one empty part. *)
Fixpoint Split (s : string) (sep : ascii) : list string :=
  match s with
  | EmptyString => [EmptyString]
  | String c s' =>
      if Ascii.eqb c sep then EmptyString :: Split s' sep
      else match Split s' sep with
           | p :: ps => String c p :: ps
           | [] => [String c EmptyString]
           end
  end.

(** The number of bytes of [s] equal to [c]. *)
Fixpoint count (c : ascii) (s : string) : nat :=
  match s with
  | EmptyString => O
  | String a s' => (if Ascii.eqb a c then 1 else 0) + count c s'
  end.

(** The white space of [unicode.IsSpace], as UTF-8 byte sequences:
    the six ASCII spaces; U+0085 and U+00A0 (two bytes); U+1680,
    U+2000..U+200A, U+2028, U+2029, U+202F, U+205F and U+3000 (three
    bytes). *)
Definition isAsciiSpace (c : ascii) : bool :=
  let n := nat_of_ascii c in
  (Nat.leb 9 n && Nat.leb n 13) || Nat.eqb n 32.

Definition isSpace2 (c1 c2 : ascii) : bool :=
  match nat_of_ascii c1, nat_of_ascii c2 with
  | 194%nat, 133%nat | 194%nat, 160%nat => true
  | _, _ => false
  end.

Definition isSpace3 (c1 c2 c3 : ascii) : bool :=
  let n3 := nat_of_ascii c3 in
  match nat_of_ascii c1, nat_of_ascii c2 with
  | 225%nat, 154%nat => Nat.eqb n3 128
  | 226%nat, 128%nat =>
      (Nat.leb 128 n3 && Nat.leb n3 138)
      || Nat.eqb n3 168 || Nat.eqb n3 169 || Nat.eqb n3 175
  | 226%nat, 129%nat => Nat.eqb n3 159
  | 227%nat, 128%nat => Nat.eqb n3 128
  | _, _ => false
  end.

(** Leading white space removed.  With [back = true] the argument is a
    reversed string, whose multi-byte runes read backwards. *)
Fixpoint trimFront (back : bool) (s : string) : string :=
  match s with
  | String c1 s1 =>
      if isAsciiSpace c1 then trimFront back s1
      else match s1 with
           | String c2 s2 =>
               if (if back then isSpace2 c2 c1 else isSpace2 c1 c2)
               then trimFront back s2
               else match s2 with
                    | String c3 s3 =>
                        if (if back then isSpace3 c3 c2 c1
                            else isSpace3 c1 c2 c3)
                        then trimFront back s3
                        else s
                    | EmptyString => s
                    end
           | EmptyString => s
           end
  | EmptyString => s
  end.

(** [strings.TrimSpace(s)] *)
Definition TrimSpace (s : string) : string :=
  rev (trimFront true (rev (trimFront false s))).

End strings.

(** ** Package strconv *)

Module strconv.

Definition digit (c : ascii) : option Z :=
  let n := Z.of_nat (nat_of_ascii c) in
  if (48 <=? n) && (n <=? 57) then Some (n - 48) else None.

Fixpoint digits (acc : Z) (s : string) : option Z :=
  match s with
  | EmptyString => Some acc
  | String c s' =>
      match digit c with
      | Some d => digits (10 * acc + d) s'
      | None => None
      end
  end.

Definition maxInt : Z := 2 ^ 63 - 1.
Definition minInt : Z := - 2 ^ 63.

Definition inRange (n : Z) : option Z :=
  if (minInt <=? n) && (n <=? maxInt) then Some n else None.

(** [strconv.Atoi(s)] for a 64-bit [int]: an optional sign and at
    least one decimal digit; [None] is the syntax or range error. *)
Definition Atoi (s : string) : option Z :=
  match s with
  | EmptyString => None
  | String c s' =>
      if Ascii.eqb c "+" || Ascii.eqb c "-" then
        match s' with
        | EmptyString => None
        | _ =>
            n ← digits 0 s';
            inRange (if Ascii.eqb c "-" then - n else n)
        end
      else n ← digits 0 s; inRange n
  end.

End strconv.

(** ** Package net *)

Module net.
Import strings.

(** [net.SplitHostPort(hostport)]: ["host:port"], ["[host]:port"];
    [None] stands for its address errors (missing port, too many
    colons, misplaced brackets). *)
Definition SplitHostPort (hostport : string) : option (string * string) :=
  let i := LastIndexByte hostport ":" in
  if i <? 0 then None
  else
    let bracketed :=
      match hostport with
      | String c _ => Ascii.eqb c "["
      | EmptyString => false
      end in
    let parsed :=
      if bracketed then
        let end_ := IndexByte hostport "]" in
        if end_ <? 0 then None
        else if end_ + 1 =? Z.of_nat (String.length hostport) then None
        else if end_ + 1 =? i
             then Some (upto (from hostport 1) (end_ - 1), 1, end_ + 1)
             else None
      else
        let host := upto hostport i in
        if 0 <=? IndexByte host ":" then None else Some (host, 0, 0) in
    match parsed with
    | None => None
    | Some (host, j, k) =>
        if 0 <=? IndexByte (from hostport j) "[" then None
        else if 0 <=? IndexByte (from hostport k) "]" then None
        else Some (host, from hostport (i + 1))
    end.

End net.

(** ** Requests, responses and the borrowed packages *)

Module url.
(** The fields of [url.URL] the engine reads or writes. *)
Record URL := mkURL {
  Scheme : string;
  Host : string;
  Path : string;
  RawQuery : string
}.

Definition withHost (u : URL) (h : string) : URL :=
  {| Scheme := Scheme u; Host := h; Path := Path u; RawQuery := RawQuery u |}.
End url.

Module http.

(** The request view: [r.Method], [r.URL], [r.Host] and whether
    [r.TLS != nil]. *)
Record Request := mkRequest {
  Method : string;
  URL : url.URL;
  Host : string;
  TLS : bool
}.

(** [r.Host = h; r.URL.Host = h] *)
Definition withHosts (r : Request) (h : string) : Request :=
  {| Method := Method r; URL := url.withHost (URL r) h;
     Host := h; TLS := TLS r |}.

(** [r.URL = u] *)
Definition withURL (r : Request) (u : url.URL) : Request :=
  {| Method := Method r; URL := u; Host := Host r; TLS := TLS r |}.

(** An [http.ResponseWriter] is an interface; it is modelled by the
    header map it hands out and the calls made on it, oldest first. *)
Inductive WriterCall :=
| WriteHeaderCall (code : Z)
| WriteCall (data : string).

Record ResponseWriter := mkResponseWriter {
  Header : gmap string (list string);
  calls : list WriterCall
}.

(** [h.Set(key, value)] for a key in canonical form, as both keys of
    this package are (["Location"], ["Content-Type"]). *)
Definition HeaderSet (h : gmap string (list string)) (key value : string)
  : gmap string (list string) :=
  <[key := [value]]> h.

Definition WriteHeader (w : ResponseWriter) (code : Z) : ResponseWriter :=
  {| Header := Header w; calls := calls w ++ [WriteHeaderCall code] |}.

Definition Write (w : ResponseWriter) (data : string) : ResponseWriter :=
  {| Header := Header w; calls := calls w ++ [WriteCall data] |}.

Definition MethodGet : string := "GET".
Definition MethodHead : string := "HEAD".
Definition StatusMovedPermanently : Z := 301.
Definition StatusMisdirectedRequest : Z := 421.

End http.

Definition LF : string := String "010"%char EmptyString.
Definition DQUOTE : string := String "034"%char EmptyString.

(** [fmt.Fprintln(w, s)]: one [Write] of [s] and a newline. *)
Definition Fprintln (w : http.ResponseWriter) (s : string) : http.ResponseWriter :=
  http.Write w (s +:+ LF).

(** The functions of other packages that the engine calls. *)
Class GoStd := {
  (** [*regexp.Regexp] *)
  Regexp : Type;
  (** [regexp.Compile]; [None] is a syntax error, on which
      [regexp.MustCompile] panics. *)
  regexp_Compile : string -> option Regexp;
  (** [re.MatchString(s)] *)
  MatchString : Regexp -> string -> bool;
  (** [re.ReplaceAllString(src, repl)] *)
  ReplaceAllString : Regexp -> string -> string -> string;
  (** [publicsuffix.EffectiveTLDPlusOne(domain)]; [None] is its error. *)
  EffectiveTLDPlusOne : string -> option string;
  (** [u.String()] *)
  url_String : url.URL -> string;
  (** [u.RequestURI()] *)
  url_RequestURI : url.URL -> string;
  (** [u.Parse(ref)]; [inr msg] is the error, [msg] its [Error()]. *)
  url_Parse : url.URL -> string -> url.URL + string;
  (** [template.HTMLEscapeString(s)] *)
  HTMLEscapeString : string -> string;
  (** [http.StatusText(code)] *)
  StatusText : Z -> string
}.

(** ** Package rewrite *)

(** The errors [parseRedirectMatchLine] returns, by their message:
    ["invalid line"], ["status code digits"] with the position of the
    offending rune or with the [Atoi] failure, and ["loop detected"]. *)
Inductive error :=
| ErrInvalidLine (s : string)
| ErrStatusCodeDigits (codeStr : string) (i : Z)
| ErrStatusCodeAtoi (codeStr : string)
| ErrLoopDetected (pattern target : string).

(** The run-time panics of rule compilation. *)
Inductive panic :=
| PanicRegexpCompile (pattern : string)
| PanicIndexOutOfRange.

Inductive result (A : Type) :=
| Ok (a : A)
| Err (e : error)
| Panic (p : panic).
Arguments Ok {A} a.
Arguments Err {A} e.
Arguments Panic {A} p.

Record Options := mkOptions {
  RedirectMatch : list string;
  PrimarySubdomain : string;
  Debug : bool
}.

Definition localhost : string := "localhost".
Definition sufscheme : string := "://".
Definition schemeHTTPS : string := "https".
Definition schemeHTTP : string := "http".
Definition contentTypeHeaderKey : string := "Content-Type".

Definition nonEmpty (s : string) : bool := negb (String.eqb s EmptyString).

Definition isDigit (ch : ascii) : bool :=
  let n := Z.of_nat (nat_of_ascii ch) in (48 <=? n) && (n <=? 57).

(** [for i, ch := range codeStr { if !isDigit(ch) { return ... } }]:
    the position of the first rune that is not a digit.  Every rune
    before it is a one-byte digit, so it starts at the first byte that
    is not a digit, and a byte of a multi-byte or broken rune never is
    one. *)
Fixpoint firstNonDigit (i : Z) (codeStr : string) : option Z :=
  match codeStr with
  | EmptyString => None
  | String ch rest =>
      if isDigit ch then firstNonDigit (i + 1) rest else Some i
  end.

Definition getPort (hostport : string) : string :=
  let portIdx := strings.IndexByte hostport ":" in
  if 0 <? portIdx then strings.from hostport portIdx else EmptyString.

Definition getHost (r : http.Request) : string :=
  let host := url.Host (http.URL r) in
  if nonEmpty host then host else http.Host r.

Definition getScheme (r : http.Request) : string :=
  let scheme := url.Scheme (http.URL r) in
  let scheme :=
    if String.eqb scheme EmptyString
    then (if http.TLS r then schemeHTTPS else schemeHTTP)
    else scheme in
  scheme +:+ sufscheme.

Definition isLoopback (host : string) : bool :=
  existsb (String.eqb host)
    ["localhost"; "127.0.0.1"; "0.0.0.0"; "::1"; "[::1]";
     "0:0:0:0:0:0:0:0"; "0:0:0:0:0:0:0:1"].

Section Engine.
Context `{GoStd}.

Record redirectMatch := mkRedirectMatch {
  code : Z;
  pattern : Regexp;
  target : string;
  isRelativePattern : bool;
  noRedirect : bool
}.

Record Engine := mkEngine {
  redirects : list redirectMatch;
  options : Options;
  domainValidator : string -> bool
}.

Definition matchAndReplace (r : redirectMatch) (src : string)
  : string * bool :=
  if MatchString (pattern r) src then
    let match_ := ReplaceAllString (pattern r) src (target r) in
    if nonEmpty match_ then (match_, true) else (EmptyString, false)
  else (EmptyString, false).

Definition parseRedirectMatchLine (s : string) : result redirectMatch :=
  match strings.Split (strings.TrimSpace s) " " with
  | [codeStr; pattern; target] =>
      match firstNonDigit 0 codeStr with
      | Some i => Err (ErrStatusCodeDigits codeStr i)
      | None =>
          match strconv.Atoi codeStr with
          | None => Err (ErrStatusCodeAtoi codeStr)
          | Some code =>
              match regexp_Compile pattern with
              | None => Panic (PanicRegexpCompile pattern)
              | Some regex =>
                  if MatchString regex target
                  then Err (ErrLoopDetected pattern target)
                  else
                    match pattern with
                    | EmptyString => Panic PanicIndexOutOfRange
                    | String c _ =>
                        Ok {| code := code;
                              pattern := regex;
                              target := target;
                              noRedirect := code <=? 0;
                              isRelativePattern := Ascii.eqb c "/" |}
                    end
              end
          end
      end
  | _ => Err (ErrInvalidLine s)
  end.

(** The loop of [New] over [opts.RedirectMatch]: the lines compile in
    order and the first failure ends it. *)
Fixpoint parseLines (lines : list string) : result (list redirectMatch) :=
  match lines with
  | [] => Ok []
  | line :: rest =>
      match parseRedirectMatchLine line with
      | Ok r =>
          match parseLines rest with
          | Ok rs => Ok (r :: rs)
          | Err e => Err e
          | Panic p => Panic p
          end
      | Err e => Err e
      | Panic p => Panic p
      end
  end.

Definition New (opts : Options) : result Engine :=
  match parseLines (RedirectMatch opts) with
  | Ok redirects =>
      let primary := PrimarySubdomain opts in
      let primary :=
        if nonEmpty primary && negb (strings.HasSuffix primary ".")
        then primary +:+ "." else primary in
      Ok {| options := {| RedirectMatch := RedirectMatch opts;
                          PrimarySubdomain := primary;
                          Debug := Debug opts |};
            redirects := redirects;
            domainValidator :=
              fun root => negb (strings.HasSuffix root localhost) |}
  | Err e => Err e
  | Panic p => Panic p
  end.

Definition getDomain (hostport : string) : string :=
  let host :=
    match net.SplitHostPort hostport with
    | Some (tmp, _) => tmp
    | None => hostport
    end in
  if isLoopback host then "localhost"
  else match EffectiveTLDPlusOne host with
       | Some domain => domain
       | None => host
       end.

Definition redirectAbs (w : http.ResponseWriter) (r : http.Request)
    (url_ : string) (code : Z) : http.ResponseWriter :=
  let h := http.Header w in
  let hadCT := bool_decide (is_Some (h !! contentTypeHeaderKey)) in
  let h := http.HeaderSet h "Location" url_ in
  let h :=
    if negb hadCT
       && (String.eqb (http.Method r) http.MethodGet
           || String.eqb (http.Method r) http.MethodHead)
    then http.HeaderSet h contentTypeHeaderKey "text/html; charset=utf-8"
    else h in
  let w :=
    http.WriteHeader {| http.Header := h; http.calls := http.calls w |} code in
  if negb hadCT && String.eqb (http.Method r) http.MethodGet then
    let body :=
      "<a href=" +:+ DQUOTE +:+ HTMLEscapeString url_ +:+ DQUOTE +:+ ">"
      +:+ StatusText code +:+ "</a>." +:+ LF in
    Fprintln w body
  else w.

(** What one call of [Engine.rewrite] ends with. *)
Inductive Outcome :=
| HttpRedirect (w : http.ResponseWriter) (r : http.Request)
               (url_ : string) (code : Z)
    (** [http.Redirect(w, r, url, code); return] *)
| Responded (w : http.ResponseWriter)
    (** [redirectAbs] wrote the response on [w]; [return] *)
| HttpError (w : http.ResponseWriter) (msg : string) (code : Z)
    (** [http.Error(w, msg, code); return] *)
| ServeNext (w : http.ResponseWriter) (r : http.Request).
    (** [next.ServeHTTP(w, r)] *)

(** The subject a rule is matched against: [src] of the loop body. *)
Definition matchSource (rd : redirectMatch) (r : http.Request) : string :=
  let src := url.Path (http.URL r) in
  if negb (isRelativePattern rd)
  then getScheme r +:+ getHost r +:+ url_RequestURI (http.URL r)
  else src.

(** A rule is skipped on a request when [matchAndReplace] reports no
    match for its subject. *)
Definition skips (r : http.Request) (rd : redirectMatch) : Prop :=
  snd (matchAndReplace rd (matchSource rd r)) = false.

(** The body of [if target, ok := rd.matchAndReplace(src); ok]. *)
Definition applyMatch (rd : redirectMatch) (src target : string)
    (w : http.ResponseWriter) (r : http.Request) : Outcome :=
  if String.eqb target src then ServeNext w r
  else if noRedirect rd then
    match url_Parse (http.URL r) target with
    | inr err => HttpError w err http.StatusMisdirectedRequest
    | inl u => ServeNext w (http.withURL r u)
    end
  else if negb (isRelativePattern rd)
  then Responded (redirectAbs w r target (code rd))
  else HttpRedirect w r target (code rd).

(** [for _, rd := range e.redirects { ... }; next.ServeHTTP(w, r)] *)
Fixpoint rewriteRules (rds : list redirectMatch)
    (w : http.ResponseWriter) (r : http.Request) : Outcome :=
  match rds with
  | [] => ServeNext w r
  | rd :: rest =>
      let src := matchSource rd r in
      match matchAndReplace rd src with
      | (target, true) => applyMatch rd src target w r
      | (_, false) => rewriteRules rest w r
      end
  end.

Definition rewrite (e : Engine) (w : http.ResponseWriter)
    (r : http.Request) : Outcome :=
  let primarySubdomain := PrimarySubdomain (options e) in
  if nonEmpty primarySubdomain then
    let hostport := getHost r in
    let root := getDomain hostport in
    if domainValidator e root then
      let root := root +:+ getPort hostport in
      let subdomain := strings.TrimSuffix hostport root in
      if String.eqb subdomain EmptyString then
        let newHost := primarySubdomain +:+ root in
        let r := http.withHosts r newHost in
        HttpRedirect w r (url_String (http.URL r))
          http.StatusMovedPermanently
      else
        let r :=
          if String.eqb subdomain primarySubdomain
          then http.withHosts r (strings.TrimPrefix hostport subdomain)
          else r in
        rewriteRules (redirects e) w r
    else rewriteRules (redirects e) w r
  else rewriteRules (redirects e) w r.

End Engine.

(** ** An executable implementation of the borrowed packages

    [Sample] implements [GoStd] so that the engine can be run.  Its
    regular expressions are the fragment of Go's syntax made of literal
    bytes, [.], [^], [$], escaped punctuation, capturing groups,
    alternation and the greedy [*], [+] and [?]; every other pattern is
    refused by [Compile].  Matching is leftmost-first by backtracking,
    the match Go's [regexp] reports, one byte per character (so it
    agrees with Go on ASCII input). *)

Module Sample.

Inductive re :=
| Eps
| Chr (c : ascii)
| Any
| Bol
| Eol
| Seq (a b : re)
| Alt (a b : re)
| Star (a : re)
| Group (n : nat) (a : re).

Definition isPunct (c : ascii) : bool :=
  let n := nat_of_ascii c in
  (Nat.leb 33 n && Nat.leb n 47) || (Nat.leb 58 n && Nat.leb n 64)
  || (Nat.leb 91 n && Nat.leb n 96) || (Nat.leb 123 n && Nat.leb n 126).

Definition oneOf (c : ascii) (cs : list ascii) : bool :=
  existsb (Ascii.eqb c) cs.

Definition isRepeatOp (c : ascii) : bool :=
  oneOf c ["*"; "+"; "?"]%char.

(** A repetition operator after an atom; a second operator in a row
    (a nested repetition, or the non-greedy [?]) is refused. *)
Definition postfix (a : re) (s : list ascii) (n : nat)
  : option (re * list ascii * nat) :=
  let single (r : re) (rest : list ascii) :=
    match rest with
    | c :: _ => if isRepeatOp c then None else Some (r, rest, n)
    | [] => Some (r, rest, n)
    end in
  match s with
  | c :: rest =>
      if Ascii.eqb c "*" then single (Star a) rest
      else if Ascii.eqb c "+" then single (Seq a (Star a)) rest
      else if Ascii.eqb c "?" then single (Alt a Eps) rest
      else Some (a, s, n)
  | [] => Some (a, s, n)
  end.

(** Recursive descent; [n] counts the groups opened so far, which
    numbers them by their opening parenthesis. *)
Fixpoint parseAlt (fuel : nat) (s : list ascii) (n : nat)
  : option (re * list ascii * nat) :=
  match fuel with
  | O => None
  | S f =>
      match parseSeq f s n with
      | Some (a, c :: rest, n1) =>
          if Ascii.eqb c "|" then
            match parseAlt f rest n1 with
            | Some (b, rest', n2) => Some (Alt a b, rest', n2)
            | None => None
            end
          else Some (a, c :: rest, n1)
      | other => other
      end
  end
with parseSeq (fuel : nat) (s : list ascii) (n : nat)
  : option (re * list ascii * nat) :=
  match fuel with
  | O => None
  | S f =>
      match s with
      | [] => Some (Eps, s, n)
      | c :: _ =>
          if oneOf c ["|"; ")"]%char then Some (Eps, s, n)
          else
            match parseRep f s n with
            | Some (a, rest, n1) =>
                match parseSeq f rest n1 with
                | Some (Eps, rest', n2) => Some (a, rest', n2)
                | Some (b, rest', n2) => Some (Seq a b, rest', n2)
                | None => None
                end
            | None => None
            end
      end
  end
with parseRep (fuel : nat) (s : list ascii) (n : nat)
  : option (re * list ascii * nat) :=
  match fuel with
  | O => None
  | S f =>
      match s with
      | [] => None
      | c :: rest =>
          if Ascii.eqb c "(" then
            if match rest with
               | c2 :: _ => Ascii.eqb c2 "?"
               | [] => false
               end
            then None
            else
              match parseAlt f rest (S n) with
              | Some (a, c2 :: rest', n1) =>
                  if Ascii.eqb c2 ")"
                  then postfix (Group (S n) a) rest' n1
                  else None
              | _ => None
              end
          else if Ascii.eqb c "." then postfix Any rest n
          else if Ascii.eqb c "^" then postfix Bol rest n
          else if Ascii.eqb c "$" then postfix Eol rest n
          else if Ascii.eqb c "\" then
            match rest with
            | c2 :: rest' =>
                if isPunct c2 then postfix (Chr c2) rest' n else None
            | [] => None
            end
          else if oneOf c ["*"; "+"; "?"; "["; "{"; ")"; "|"]%char
          then None
          else postfix (Chr c) rest n
      end
  end.

Record regexp := mkRegexp { prog : re; numSubexp : nat }.

Definition Compile (expr : string) : option regexp :=
  let s := list_ascii_of_string expr in
  match parseAlt (4 * List.length s + 4) s 0 with
  | Some (a, [], n) => Some {| prog := a; numSubexp := n |}
  | _ => None
  end.

(** The text of the groups that took part in the match, latest first. *)
Definition caps := list (nat * list ascii).

Definition taken (s rest : list ascii) : list ascii :=
  List.firstn (List.length s - List.length rest) s.

(** [exec a start s cs k]: match [a] at the head of [s] and continue
    with [k] on what is left; [start] tells whether [s] is the whole
    text.  Alternatives are tried left to right and a star takes as
    many rounds as it can, each of which must consume input. *)
Fixpoint exec (a : re) (start : bool) (s : list ascii) (cs : caps)
    (k : bool -> list ascii -> caps -> option (list ascii * caps))
  : option (list ascii * caps) :=
  match a with
  | Eps => k start s cs
  | Chr c =>
      match s with
      | x :: s' => if Ascii.eqb x c then k false s' cs else None
      | [] => None
      end
  | Any =>
      match s with
      | x :: s' => if Ascii.eqb x "010" then None else k false s' cs
      | [] => None
      end
  | Bol => if start then k start s cs else None
  | Eol => match s with [] => k start s cs | _ => None end
  | Seq a1 a2 =>
      exec a1 start s cs (fun st s' cs' => exec a2 st s' cs' k)
  | Alt a1 a2 =>
      match exec a1 start s cs k with
      | Some res => Some res
      | None => exec a2 start s cs k
      end
  | Star a1 =>
      (fix star (fuel : nat) (st : bool) (s0 : list ascii) (cs0 : caps)
         : option (list ascii * caps) :=
         match fuel with
         | O => k st s0 cs0
         | S fuel' =>
             match exec a1 st s0 cs0
                     (fun st' s' cs' =>
                        if Nat.ltb (List.length s') (List.length s0)
                        then star fuel' st' s' cs' else None) with
             | Some res => Some res
             | None => k st s0 cs0
             end
         end) (List.length s) start s cs
  | Group n a1 =>
      exec a1 start s cs
        (fun st s' cs' => k st s' ((n, taken s s') :: cs'))
  end.

Definition matchHere (a : re) (start : bool) (s : list ascii)
  : option (list ascii * caps) :=
  exec a start s [] (fun _ s' cs => Some (s', cs)).

(** The leftmost match in [s]: the bytes before it, its text, the
    bytes after it and its groups. *)
Fixpoint find (a : re) (start : bool) (s : list ascii)
  : option (list ascii * list ascii * list ascii * caps) :=
  match matchHere a start s with
  | Some (rest, cs) => Some ([], taken s rest, rest, cs)
  | None =>
      match s with
      | [] => None
      | c :: s' =>
          match find a false s' with
          | Some (skipped, m, rest, cs) => Some (c :: skipped, m, rest, cs)
          | None => None
          end
      end
  end.

Definition MatchString (r : regexp) (s : string) : bool :=
  match find (prog r) true (list_ascii_of_string s) with
  | Some _ => true
  | None => false
  end.

(** *** Templates: [Regexp.expand] and [extract] *)

Definition isNameChar (c : ascii) : bool :=
  let n := nat_of_ascii c in
  (Nat.leb 48 n && Nat.leb n 57) || (Nat.leb 65 n && Nat.leb n 90)
  || (Nat.leb 97 n && Nat.leb n 122) || Nat.eqb n 95.

Fixpoint span (p : ascii -> bool) (s : list ascii)
  : list ascii * list ascii :=
  match s with
  | c :: s' =>
      if p c then let '(a, b) := span p s' in (c :: a, b) else ([], s)
  | [] => ([], [])
  end.

(** The name after a [$], bare or in braces, and what follows it. *)
Definition extract (str : list ascii) : option (list ascii * list ascii) :=
  let brace :=
    match str with
    | c :: _ => Ascii.eqb c "{"
    | [] => false
    end in
  let str1 := if brace then List.tl str else str in
  match span isNameChar str1 with
  | ([], _) => None
  | (name, rest) =>
      if brace then
        match rest with
        | c :: rest' =>
            if Ascii.eqb c "}" then Some (name, rest') else None
        | [] => None
        end
      else Some (name, rest)
  end.

(** The group a name refers to: a decimal number without leading
    zeros.  The fragment has no named groups, so every other name
    refers to nothing. *)
Definition groupNumber (name : list ascii) : option nat :=
  let leadingZero :=
    match name with
    | c :: _ :: _ => Ascii.eqb c "0"
    | _ => false
    end in
  if leadingZero then None
  else
    match strconv.digits 0 (string_of_list_ascii name) with
    | Some v => Some (Z.to_nat v)
    | None => None
    end.

Fixpoint lookupCap (n : nat) (cs : caps) : list ascii :=
  match cs with
  | (i, t) :: cs' => if Nat.eqb i n then t else lookupCap n cs'
  | [] => []
  end.

Definition submatch (numSub : nat) (m : list ascii) (cs : caps)
    (name : list ascii) : list ascii :=
  match groupNumber name with
  | Some O => m
  | Some n => if Nat.leb n numSub then lookupCap n cs else []
  | None => []
  end.

Fixpoint expand (fuel : nat) (numSub : nat) (template m : list ascii)
    (cs : caps) : list ascii :=
  match fuel with
  | O => template
  | S f =>
      match template with
      | [] => []
      | c :: t =>
          if negb (Ascii.eqb c "$") then c :: expand f numSub t m cs
          else if match t with
                  | c2 :: _ => Ascii.eqb c2 "$"
                  | [] => false
                  end
          then "$"%char :: expand f numSub (List.tl t) m cs
          else
            match extract t with
            | Some (name, rest) =>
                submatch numSub m cs name ++ expand f numSub rest m cs
            | None => "$"%char :: expand f numSub t m cs
            end
      end
  end.

(** *** [Regexp.replaceAll]

    [s] is the text from the place the search resumes, [pend] the
    bytes between the end of the last match and that place (one byte
    after an empty match, none otherwise) and [start] tells whether
    the search is still at the head of the text.  A match of the empty
    string right at the end of the last match is not replaced, and
    after an empty match the search moves on by one byte. *)
Fixpoint replaceAll (fuel : nat) (r : regexp) (repl : list ascii)
    (start : bool) (pend s : list ascii) : list ascii :=
  match fuel with
  | O => pend ++ s
  | S f =>
      match find (prog r) start s with
      | None => pend ++ s
      | Some (skipped, m, rest, cs) =>
          let atZero := start && Nat.eqb (List.length skipped) 0 in
          let emptyAtLastEnd :=
            Nat.eqb (List.length pend + List.length skipped
                     + List.length m) 0 in
          let out :=
            if negb emptyAtLastEnd || atZero
            then expand (S (List.length repl)) (numSubexp r) repl m cs
            else [] in
          if Nat.eqb (List.length skipped + List.length m) 0 then
            match s with
            | c :: s' =>
                pend ++ out ++ replaceAll f r repl false [c] s'
            | [] => pend ++ out
            end
          else
            pend ++ skipped ++ out ++ replaceAll f r repl false [] rest
      end
  end.

Definition ReplaceAllString (r : regexp) (src repl : string) : string :=
  let s := list_ascii_of_string src in
  string_of_list_ascii
    (replaceAll (S (List.length s)) r (list_ascii_of_string repl)
       true [] s).

(** *** The other packages *)

Fixpoint contains2 (c : ascii) (s : string) : bool :=
  match s with
  | String a (String b _ as s') =>
      (Ascii.eqb a c && Ascii.eqb b c) || contains2 c s'
  | _ => false
  end.

(** [publicsuffix.EffectiveTLDPlusOne] over a public suffix list
    reduced to its default rule [*]: the public suffix of a domain is
    its last label. *)
Definition EffectiveTLDPlusOne (domain : string) : option string :=
  if strings.HasPrefix domain "." || strings.HasSuffix domain "."
     || contains2 "." domain
  then None
  else
    match List.rev (strings.Split domain ".") with
    | tld :: sld :: _ => Some (sld +:+ "." +:+ tld)
    | _ => None
    end.

Fixpoint cut (c : ascii) (s : string) : string * option string :=
  match s with
  | EmptyString => (EmptyString, None)
  | String a s' =>
      if Ascii.eqb a c then (EmptyString, Some s')
      else let '(x, y) := cut c s' in (String a x, y)
  end.

Fixpoint hasByte (c : ascii) (s : string) : bool :=
  match s with
  | EmptyString => false
  | String a s' => Ascii.eqb a c || hasByte c s'
  end.

(** [URL.String] for the fields of [url.URL], on hosts and paths that
    need no escaping. *)
Definition URLString (u : url.URL) : string :=
  let scheme := url.Scheme u in
  let host := url.Host u in
  let path := url.Path u in
  let buf :=
    if nonEmpty scheme then scheme +:+ ":" else EmptyString in
  let buf :=
    if nonEmpty scheme || nonEmpty host then
      (if nonEmpty host || nonEmpty path then buf +:+ "//" else buf)
      +:+ host
    else buf in
  let buf :=
    match path with
    | String c _ =>
        if negb (Ascii.eqb c "/") && nonEmpty host
        then buf +:+ "/" else buf
    | EmptyString => buf
    end in
  let buf :=
    if nonEmpty buf then buf
    else if hasByte ":" (fst (cut "/" path)) then "./" else buf in
  let buf := buf +:+ path in
  if nonEmpty (url.RawQuery u) then buf +:+ "?" +:+ url.RawQuery u
  else buf.

(** [URL.RequestURI], on paths that need no escaping. *)
Definition RequestURI (u : url.URL) : string :=
  let result :=
    if nonEmpty (url.Path u) then url.Path u else "/" in
  if nonEmpty (url.RawQuery u) then result +:+ "?" +:+ url.RawQuery u
  else result.

Fixpoint hasDotSegment (s : string) : bool :=
  match s with
  | String c s' =>
      (Ascii.eqb c "/"
       && match s' with
          | String c2 _ => Ascii.eqb c2 "."
          | EmptyString => false
          end)
      || hasDotSegment s'
  | EmptyString => false
  end.

(** [URL.Parse] for the references the engine's examples produce: an
    absolute path without dot segments, escapes or fragment, and an
    optional query.  The scheme and host of the base are kept.  Every
    other reference is refused. *)
Definition Parse (base : url.URL) (ref : string) : url.URL + string :=
  let plain :=
    strings.HasPrefix ref "/" && negb (strings.HasPrefix ref "//")
    && negb (hasByte "#" ref || hasByte "%" ref || hasDotSegment ref) in
  if plain then
    let '(path, query) := cut "?" ref in
    inl {| url.Scheme := url.Scheme base; url.Host := url.Host base;
           url.Path := path;
           url.RawQuery := default EmptyString query |}
  else inr ("parse " +:+ DQUOTE +:+ ref +:+ DQUOTE
            +:+ ": unsupported reference").

(** [template.HTMLEscapeString] *)
Fixpoint HTMLEscapeString (s : string) : string :=
  match s with
  | EmptyString => EmptyString
  | String c s' =>
      let rest := HTMLEscapeString s' in
      if Ascii.eqb c "034" then "&#34;" +:+ rest
      else if Ascii.eqb c "'" then "&#39;" +:+ rest
      else if Ascii.eqb c "&" then "&amp;" +:+ rest
      else if Ascii.eqb c "<" then "&lt;" +:+ rest
      else if Ascii.eqb c ">" then "&gt;" +:+ rest
      else if Ascii.eqb c "000"
      then String "239" (String "191" (String "189" rest))
      else String c rest
  end.

(** [http.StatusText] *)
Definition StatusText (code : Z) : string :=
  match code with
  | 100 => "Continue"
  | 101 => "Switching Protocols"
  | 102 => "Processing"
  | 103 => "Early Hints"
  | 200 => "OK"
  | 201 => "Created"
  | 202 => "Accepted"
  | 203 => "Non-Authoritative Information"
  | 204 => "No Content"
  | 205 => "Reset Content"
  | 206 => "Partial Content"
  | 207 => "Multi-Status"
  | 208 => "Already Reported"
  | 226 => "IM Used"
  | 300 => "Multiple Choices"
  | 301 => "Moved Permanently"
  | 302 => "Found"
  | 303 => "See Other"
  | 304 => "Not Modified"
  | 305 => "Use Proxy"
  | 307 => "Temporary Redirect"
  | 308 => "Permanent Redirect"
  | 400 => "Bad Request"
  | 401 => "Unauthorized"
  | 402 => "Payment Required"
  | 403 => "Forbidden"
  | 404 => "Not Found"
  | 405 => "Method Not Allowed"
  | 406 => "Not Acceptable"
  | 407 => "Proxy Authentication Required"
  | 408 => "Request Timeout"
  | 409 => "Conflict"
  | 410 => "Gone"
  | 411 => "Length Required"
  | 412 => "Precondition Failed"
  | 413 => "Request Entity Too Large"
  | 414 => "Request URI Too Long"
  | 415 => "Unsupported Media Type"
  | 416 => "Requested Range Not Satisfiable"
  | 417 => "Expectation Failed"
  | 418 => "I'm a teapot"
  | 421 => "Misdirected Request"
  | 422 => "Unprocessable Entity"
  | 423 => "Locked"
  | 424 => "Failed Dependency"
  | 425 => "Too Early"
  | 426 => "Upgrade Required"
  | 428 => "Precondition Required"
  | 429 => "Too Many Requests"
  | 431 => "Request Header Fields Too Large"
  | 451 => "Unavailable For Legal Reasons"
  | 500 => "Internal Server Error"
  | 501 => "Not Implemented"
  | 502 => "Bad Gateway"
  | 503 => "Service Unavailable"
  | 504 => "Gateway Timeout"
  | 505 => "HTTP Version Not Supported"
  | 506 => "Variant Also Negotiates"
  | 507 => "Insufficient Storage"
  | 508 => "Loop Detected"
  | 510 => "Not Extended"
  | 511 => "Network Authentication Required"
  | _ => EmptyString
  end.

Definition std : GoStd :=
  Build_GoStd regexp Compile MatchString ReplaceAllString
    EffectiveTLDPlusOne URLString RequestURI Parse
    HTMLEscapeString StatusText.

End Sample.

(** ** The specification's reading of a rule line *)

(** The white-space-separated tokens of a line, in the words of the
    specification: its maximal runs of bytes free of white space, as
    [strings.Fields] cuts them.  [tok] is the token being read,
    reversed. *)
Fixpoint tokensFrom (tok : string) (s : string) : list string :=
  let flush :=
    if nonEmpty tok then [strings.rev tok] else [] in
  match s with
  | EmptyString => flush
  | String c1 s1 =>
      if strings.isAsciiSpace c1 then flush ++ tokensFrom EmptyString s1
      else
        match s1 with
        | String c2 s2 =>
            if strings.isSpace2 c1 c2
            then flush ++ tokensFrom EmptyString s2
            else
              match s2 with
              | String c3 s3 =>
                  if strings.isSpace3 c1 c2 c3
                  then flush ++ tokensFrom EmptyString s3
                  else tokensFrom (String c1 tok) s1
              | EmptyString => tokensFrom (String c1 tok) s1
              end
        | EmptyString => tokensFrom (String c1 tok) s1
        end
  end.

Definition spec_tokens (line : string) : list string :=
  tokensFrom EmptyString line.

(** ** Data of the scenarios *)

Module Scenario.

(** A fresh response writer: no header set, nothing written. *)
Definition w0 : http.ResponseWriter :=
  {| http.Header := ∅; http.calls := [] |}.

(** A response writer on which a handler has set [Content-Type]. *)
Definition wCT : http.ResponseWriter :=
  {| http.Header := {[ contentTypeHeaderKey := ["text/plain"] ]};
     http.calls := [] |}.

(** A server request in origin form: [r.URL] holds the path only. *)
Definition request (method host path : string) : http.Request :=
  {| http.Method := method;
     http.URL := {| url.Scheme := EmptyString; url.Host := EmptyString;
                    url.Path := path; url.RawQuery := EmptyString |};
     http.Host := host;
     http.TLS := false |}.

(** The rules a list of lines compiles to under [Sample.std]. *)
Definition rules (lines : list string)
  : list (@redirectMatch Sample.std) :=
  match @parseLines Sample.std lines with
  | Ok rds => rds
  | _ => []
  end.

(** The engine [New] builds from rule lines and a primary subdomain
    under [Sample.std]; the engine without rules if [New] fails. *)
Definition options (lines : list string) (primary : string) : Options :=
  {| RedirectMatch := lines; PrimarySubdomain := primary;
     Debug := false |}.

Definition engine (lines : list string) (primary : string)
  : @Engine Sample.std :=
  match @New Sample.std (options lines primary) with
  | Ok e => e
  | _ => @mkEngine Sample.std [] (options [] EmptyString) (λ _, false)
  end.

(** The rule one line compiles to under [Sample.std]; a rule that
    never matches anything useful if the line does not compile. *)
Definition rule (line : string) : @redirectMatch Sample.std :=
  match @parseRedirectMatchLine Sample.std line with
  | Ok rd => rd
  | _ => @mkRedirectMatch Sample.std 0 (Sample.mkRegexp Sample.Eps 0)
           EmptyString true true
  end.

Definition readme : list string :=
  ["301 /seo/(.*) /$1"; "301 /docs/v12(.*) /docs"; "301 /old(.*) /"].

(** A rule whose template names a group its pattern does not have,
    followed by a rule with the same pattern. *)
Definition shadowed : list string := ["301 /a $9"; "302 /a /b"].

Definition TAB : string := String "009"%char EmptyString.

(** A line whose pattern holds a tab. *)
Definition tabbed : string := "301 /a" +:+ TAB +:+ "b /c".

(** A rule built by hand, not by [parseRedirectMatchLine]: its target
    matches its own pattern. *)
Definition looping : list (@redirectMatch Sample.std) :=
  match Sample.Compile "/a" with
  | Some regex =>
      [ @mkRedirectMatch Sample.std 301 regex "/a/b" true false ]
  | None => []
  end.

End Scenario.

(** ** What the rule loop may end with *)

Section Outcomes.
Context `{GoStd}.

(** What the outcome of the rule loop owes to the request it ran on. *)
Definition loopOutcome (w : http.ResponseWriter) (r : http.Request)
    (o : Outcome) : Prop :=
  match o with
  | HttpRedirect w' r' url_ c =>
      w' = w ∧ r' = r ∧ 0 < c ∧ url_ ≠ EmptyString
      ∧ url_ ≠ url.Path (http.URL r)
  | Responded w' =>
      ∃ url_ c, w' = redirectAbs w r url_ c ∧ 0 < c
                ∧ url_ ≠ EmptyString
  | HttpError w' _ c => w' = w ∧ c = http.StatusMisdirectedRequest
  | ServeNext w' r' =>
      w' = w
      ∧ (r' = r
         ∨ ∃ target u, url_Parse (http.URL r) target = inl u
                       ∧ r' = http.withURL r u)
  end.

End Outcomes.

(** A host or a port free of colons and brackets. *)
Definition plain (s : string) : Prop :=
  strings.count ":" s = 0%nat ∧ strings.count "[" s = 0%nat
  ∧ strings.count "]" s = 0%nat.

(** ** Loading the options from a file *)

(** What [LoadOptions] fails with: the error of [os.Open], the
    ["unexpected file extension"] error, or the error of the decoder. *)
Inductive loadError :=
| ErrOpen (msg : string)
| ErrExtension (filename : string)
| ErrDecode (filename msg : string).

(** The extension [LoadOptions] goes by: the name from its last dot on,
    when that dot is neither among the first two bytes nor the last
    one, and [".yml"] otherwise. *)
Definition fileExt (filename : string) : string :=
  let ext := ".yml" in
  let index := strings.LastIndexByte filename "." in
  if (1 <? index) && (index <? Z.of_nat (String.length filename) - 1)
  then strings.from filename index
  else ext.

Section Loading.
Context `{GoStd}.

(** An open file, [os.Open] and the decoders of yaml.v3 and
    encoding/json into [Options]; [inr msg] is an error. *)
Variable File : Type.
Variable os_Open : string -> File + string.
Variable yaml_Decode : File -> Options + string.
Variable json_Decode : File -> Options + string.

Definition LoadOptions (filename : string) : Options + loadError :=
  let ext := fileExt filename in
  match os_Open filename with
  | inr err => inr (ErrOpen err)
  | inl f =>
      let decoded :=
        if String.eqb ext ".yaml" || String.eqb ext ".yml"
        then Some (yaml_Decode f)
        else if String.eqb ext ".json" then Some (json_Decode f)
        else None in
      match decoded with
      | None => inr (ErrExtension filename)
      | Some (inr err) => inr (ErrDecode filename err)
      | Some (inl opts) => inl opts
      end
  end.

(** What [Load] ends with: the engine whose [Handler] it returns, or a
    panic with the error of [LoadOptions] or of [New]. *)
Inductive loaded :=
| Loaded (e : Engine)
| LoadPanic (err : loadError)
| NewPanic (err : error)
| RuntimePanic (p : panic).

Definition Load (filename : string) : loaded :=
  match LoadOptions filename with
  | inr err => LoadPanic err
  | inl opts =>
      match New opts with
      | Ok engine => Loaded engine
      | Err err => NewPanic err
      | Panic p => RuntimePanic p
      end
  end.

End Loading.

(** ** The router of the subdomains example *)

Module example.
Section Router.

(** An [http.Handler] of the example, by its identity. *)
Variable Handler : Type.

(** [Router]: the root domain with its port, the mux of each
    subdomain, and the embedded [*http.ServeMux] of the root domain. *)
Record Router := mkRouter {
  rootDomain : string;
  subdomains : gmap string Handler;
  ServeMux : Handler
}.

(** What [Router.ServeHTTP] does with a request: hands it to a mux, or
    answers [http.Error(w, "Not found", 404)]. *)
Inductive Served :=
| ServedBy (mux : Handler)
| NotFound.

Definition ServeHTTP (router : Router) (r : http.Request) : Served :=
  let subdomain := strings.TrimSuffix (http.Host r) (rootDomain router) in
  if (1 <? Z.of_nat (String.length subdomain))
     && negb (String.eqb subdomain (rootDomain router))
  then
    let subdomain :=
      strings.upto subdomain (Z.of_nat (String.length subdomain) - 1) in
    match subdomains router !! subdomain with
    | Some mux => ServedBy mux
    | None => NotFound
    end
  else ServedBy (ServeMux router).

Definition HandleSubdomain (router : Router) (subdomain : string)
    (mux : Handler) : Router :=
  {| rootDomain := rootDomain router;
     subdomains := <[subdomain := mux]> (subdomains router);
     ServeMux := ServeMux router |}.

(** [newRouter(rootDomain)], [rootMux] being the mux it creates. *)
Definition newRouter (rootDomain_ : string) (rootMux : Handler) : Router :=
  {| rootDomain := rootDomain_;
     subdomains := {[ "www" := rootMux ]};
     ServeMux := rootMux |}.

End Router.
End example.

(** ** Data of further scenarios *)

Module Further.

(** A file system with one file per name listed, whose content is the
    name of the decoder expected to read it. *)
Definition open (names : list string) (filename : string)
  : string + string :=
  if existsb (String.eqb filename) names then inl filename
  else inr ("open " +:+ filename +:+ ": no such file or directory").

(** Decoders that tell which of them ran. *)
Definition decodeAs (format : string) (file : string) : Options + string :=
  inl {| RedirectMatch := []; PrimarySubdomain := format; Debug := false |}.

(** The router of the example's [main], with its three muxes named. *)
Definition router : example.Router string :=
  example.HandleSubdomain _
    (example.HandleSubdomain _
       (example.newRouter _ "mydomain.com:8080" "root")
       "test" "testRouter")
    "newtest" "newtestRouter".

End Further.

(** ** Facts about the string functions *)

Module StringFacts.
Import strings.

Lemma append_cons c a b : String c a +:+ b = String c (a +:+ b).
Proof. reflexivity. Qed.

Lemma append_nil_l a : EmptyString +:+ a = a.
Proof. reflexivity. Qed.

Lemma append_nil_r a : a +:+ EmptyString = a.
Proof.
  induction a as [|c a IH]; [reflexivity|].
  rewrite append_cons, IH. reflexivity.
Qed.

Lemma append_assoc a b c : (a +:+ b) +:+ c = a +:+ (b +:+ c).
Proof.
  induction a as [|x a IH]; [reflexivity|].
  rewrite !append_cons, IH. reflexivity.
Qed.

Lemma to_list_append a b :
  list_ascii_of_string (a +:+ b)
  = (list_ascii_of_string a ++ list_ascii_of_string b)%list.
Proof.
  induction a as [|x a IH]; [reflexivity|].
  rewrite append_cons. cbn [list_ascii_of_string]. rewrite IH. reflexivity.
Qed.

Lemma of_list_app l1 l2 :
  string_of_list_ascii (l1 ++ l2)
  = string_of_list_ascii l1 +:+ string_of_list_ascii l2.
Proof.
  induction l1 as [|x l1 IH]; [reflexivity|].
  cbn [string_of_list_ascii app]. rewrite IH. reflexivity.
Qed.

Lemma rev_append a b : rev (a +:+ b) = rev b +:+ rev a.
Proof.
  unfold rev. rewrite to_list_append, List.rev_app_distr.
  apply of_list_app.
Qed.

Lemma rev_involutive a : rev (rev a) = a.
Proof.
  unfold rev. rewrite list_ascii_of_string_of_list_ascii.
  rewrite List.rev_involutive. apply string_of_list_ascii_of_string.
Qed.

Lemma length_to_list a :
  List.length (list_ascii_of_string a) = String.length a.
Proof. induction a as [|x a IH]; cbn; congruence. Qed.

Lemma rev_length a : String.length (rev a) = String.length a.
Proof.
  unfold rev. rewrite <- length_to_list.
  rewrite list_ascii_of_string_of_list_ascii, List.length_rev.
  apply length_to_list.
Qed.

Lemma prefix_append p t : String.prefix p (p +:+ t) = true.
Proof.
  induction p as [|c p IH]; [destruct t; reflexivity|].
  rewrite append_cons. cbn [String.prefix].
  destruct (ascii_dec c c); [exact IH | contradiction].
Qed.

Lemma prefix_inv p s :
  String.prefix p s = true → s = p +:+ drop (String.length p) s.
Proof.
  revert s. induction p as [|c p IH]; intros s Hp.
  - destruct s; reflexivity.
  - destruct s as [|d s]; [discriminate|].
    cbn [String.prefix] in Hp.
    destruct (ascii_dec c d) as [->|]; [|discriminate].
    rewrite append_cons. cbn [String.length drop].
    f_equal. apply IH, Hp.
Qed.

Lemma drop_append p t : drop (String.length p) (p +:+ t) = t.
Proof.
  induction p as [|c p IH]; [destruct t; reflexivity|].
  rewrite append_cons. exact IH.
Qed.

Lemma TrimSuffix_spec s suffix :
  HasSuffix s suffix = true → s = TrimSuffix s suffix +:+ suffix.
Proof.
  intros Hs. unfold TrimSuffix. rewrite Hs.
  unfold HasSuffix in Hs. apply prefix_inv in Hs.
  rewrite rev_length in Hs.
  rewrite <- (rev_involutive s) at 1. rewrite Hs at 1.
  rewrite rev_append, rev_involutive. reflexivity.
Qed.

Lemma TrimSuffix_other s suffix :
  HasSuffix s suffix = false → TrimSuffix s suffix = s.
Proof. intros Hs. unfold TrimSuffix. rewrite Hs. reflexivity. Qed.

Lemma TrimSuffix_append p suffix : TrimSuffix (p +:+ suffix) suffix = p.
Proof.
  unfold TrimSuffix, HasSuffix.
  rewrite rev_append, prefix_append.
  rewrite <- (rev_length suffix), drop_append. apply rev_involutive.
Qed.

Lemma TrimPrefix_append p t : TrimPrefix (p +:+ t) p = t.
Proof.
  unfold TrimPrefix, HasPrefix. rewrite prefix_append. apply drop_append.
Qed.

Lemma TrimPrefix_self p : TrimPrefix p p = EmptyString.
Proof.
  rewrite <- (append_nil_r p) at 1. apply TrimPrefix_append.
Qed.

(** What [TrimSuffix] leaves is a prefix; taking it off again gives
    back the suffix, unless nothing was trimmed. *)
Lemma TrimSuffix_TrimPrefix s suffix :
  s = TrimSuffix s suffix +:+ TrimPrefix s (TrimSuffix s suffix)
  ∧ (s ≠ TrimSuffix s suffix →
     TrimPrefix s (TrimSuffix s suffix) = suffix).
Proof.
  destruct (HasSuffix s suffix) eqn:Hsuf.
  - apply TrimSuffix_spec in Hsuf.
    remember (TrimSuffix s suffix) as p eqn:Hp. clear Hp. subst s.
    rewrite TrimPrefix_append. auto.
  - apply TrimSuffix_other in Hsuf. rewrite Hsuf, TrimPrefix_self.
    rewrite append_nil_r. split; [reflexivity|]. intros Hne.
    contradiction.
Qed.

Lemma nonEmpty_true s : nonEmpty s = true ↔ s ≠ EmptyString.
Proof.
  unfold nonEmpty. rewrite negb_true_iff. apply String.eqb_neq.
Qed.

Lemma nonEmpty_false s : nonEmpty s = false ↔ s = EmptyString.
Proof.
  unfold nonEmpty. rewrite negb_false_iff. apply String.eqb_eq.
Qed.

Lemma Split_length s sep :
  List.length (Split s sep) = S (count sep s).
Proof.
  induction s as [|a s IH]; [reflexivity|].
  cbn [Split count]. destruct (Ascii.eqb a sep).
  - cbn. rewrite IH. reflexivity.
  - destruct (Split s sep); cbn in *; congruence.
Qed.

End StringFacts.

(** ** Rule compilation *)

Section Compilation.
Context `{GoStd}.

(** What a successful compilation went through. *)
Lemma parseRedirectMatchLine_Ok line rd :
  parseRedirectMatchLine line = Ok rd →
  ∃ codeStr c pat,
    strings.Split (strings.TrimSpace line) " "
      = [codeStr; String c pat; target rd]
    ∧ firstNonDigit 0 codeStr = None
    ∧ strconv.Atoi codeStr = Some (code rd)
    ∧ regexp_Compile (String c pat) = Some (pattern rd)
    ∧ MatchString (pattern rd) (target rd) = false
    ∧ noRedirect rd = (code rd <=? 0)
    ∧ isRelativePattern rd = Ascii.eqb c "/".
Proof.
  unfold parseRedirectMatchLine.
  destruct (strings.Split _ _) as [|codeStr [|pat [|tgt [|x l]]]];
    try discriminate.
  destruct (firstNonDigit 0 codeStr) eqn:Hd; [discriminate|].
  destruct (strconv.Atoi codeStr) as [n|] eqn:Ha; [|discriminate].
  destruct (regexp_Compile pat) as [regex|] eqn:Hc; [|discriminate].
  destruct (MatchString regex tgt) eqn:Hm; [discriminate|].
  destruct pat as [|c pat]; [discriminate|].
  intros [= <-]. cbn. exists codeStr, c, pat. auto 10.
Qed.

(** A panic of rule compilation is [regexp.MustCompile] refusing the
    pattern, or the read of [pattern[0]] on an empty pattern that got
    past the loop check. *)
Lemma parseRedirectMatchLine_Panic line p :
  parseRedirectMatchLine line = Panic p →
  ∃ codeStr pat tgt,
    strings.Split (strings.TrimSpace line) " " = [codeStr; pat; tgt]
    ∧ ((p = PanicRegexpCompile pat ∧ regexp_Compile pat = None)
       ∨ (p = PanicIndexOutOfRange ∧ pat = EmptyString
          ∧ ∃ regex, regexp_Compile pat = Some regex
                     ∧ MatchString regex tgt = false)).
Proof.
  unfold parseRedirectMatchLine.
  destruct (strings.Split _ _) as [|codeStr [|pat [|tgt [|x l]]]];
    try discriminate.
  destruct (firstNonDigit 0 codeStr) eqn:Hd; [discriminate|].
  destruct (strconv.Atoi codeStr) as [n|] eqn:Ha; [|discriminate].
  destruct (regexp_Compile pat) as [regex|] eqn:Hc.
  - destruct (MatchString regex tgt) eqn:Hm; [discriminate|].
    destruct pat as [|c pat]; [|discriminate].
    intros [= <-]. exists codeStr, EmptyString, tgt.
    split; [reflexivity|]. right. eauto.
  - intros [= <-]. exists codeStr, pat, tgt. auto.
Qed.

Lemma parseLines_Ok lines rds :
  parseLines lines = Ok rds →
  Forall2 (λ line rd, parseRedirectMatchLine line = Ok rd) lines rds.
Proof.
  revert rds. induction lines as [|line lines IH]; intros rds.
  - intros [= <-]. constructor.
  - cbn [parseLines].
    destruct (parseRedirectMatchLine line) as [rd| |] eqn:Hl;
      try discriminate.
    destruct (parseLines lines) as [rs| |]; try discriminate.
    intros [= <-]. constructor; auto.
Qed.

Lemma New_Ok opts e :
  New opts = Ok e →
  parseLines (RedirectMatch opts) = Ok (redirects e)
  ∧ PrimarySubdomain (options e)
    = (if nonEmpty (PrimarySubdomain opts)
          && negb (strings.HasSuffix (PrimarySubdomain opts) ".")
       then PrimarySubdomain opts +:+ "."
       else PrimarySubdomain opts)
  ∧ domainValidator e
    = (λ root, negb (strings.HasSuffix root localhost)).
Proof.
  unfold New.
  destruct (parseLines (RedirectMatch opts)) as [rs| |]; try discriminate.
  intros [= <-]. cbn. auto.
Qed.

End Compilation.

Section CompilationClaims.
Context `{GoStd}.

(** C1 (loop check).  A line that reaches the loop check -- three
    tokens, a status code of digits, a pattern that compiles -- and
    whose compiled pattern matches the literal target fails with the
    loop-detected error; every rule that [parseRedirectMatchLine]
    returns has a pattern that does not match its target; and so has
    every rule of an engine that [New] returns: the invariant is
    established when the engine is built. *)
Theorem loop_check :
  (∀ line codeStr pat tgt n regex,
      strings.Split (strings.TrimSpace line) " " = [codeStr; pat; tgt] →
      firstNonDigit 0 codeStr = None →
      strconv.Atoi codeStr = Some n →
      regexp_Compile pat = Some regex →
      MatchString regex tgt = true →
      parseRedirectMatchLine line = Err (ErrLoopDetected pat tgt))
  ∧ (∀ line rd,
        parseRedirectMatchLine line = Ok rd →
        MatchString (pattern rd) (target rd) = false)
  ∧ (∀ opts e,
        New opts = Ok e →
        Forall (λ rd, MatchString (pattern rd) (target rd) = false)
          (redirects e)).
Proof.
  split; [|split].
  - intros line codeStr pat tgt n regex Hs Hd Ha Hc Hm.
    unfold parseRedirectMatchLine. rewrite Hs, Hd, Ha, Hc, Hm.
    reflexivity.
  - intros line rd Hok.
    apply parseRedirectMatchLine_Ok in Hok.
    destruct Hok as (? & ? & ? & _ & _ & _ & _ & Hm & _). exact Hm.
  - intros opts e Hnew.
    apply New_Ok in Hnew. destruct Hnew as [Hl _].
    apply parseLines_Ok in Hl.
    induction Hl as [|line rd lines rds Hrd _ IH]; constructor; auto.
    apply parseRedirectMatchLine_Ok in Hrd.
    destruct Hrd as (? & ? & ? & _ & _ & _ & _ & Hm & _). exact Hm.
Qed.

(** C6, amended (tokenization).  A line gets past tokenization exactly
    when, once the white space around it is trimmed, cutting it at
    every U+0020 byte gives three parts, that is when it holds exactly
    two such bytes; every other line fails with the invalid-line
    error. *)
Theorem tokenization line :
  let parts := strings.Split (strings.TrimSpace line) " " in
  (parseRedirectMatchLine line = Err (ErrInvalidLine line)
   ↔ List.length parts ≠ 3%nat)
  ∧ List.length parts = S (strings.count " " (strings.TrimSpace line)).
Proof.
  cbn zeta. split; [|apply StringFacts.Split_length].
  unfold parseRedirectMatchLine.
  destruct (strings.Split _ _) as [|codeStr [|pat [|tgt [|x l]]]];
    cbn [List.length]; try (split; [intros _; lia | reflexivity]).
  split; [|intros Hl; lia]. intros Hp. exfalso.
  destruct (firstNonDigit 0 codeStr); [discriminate|].
  destruct (strconv.Atoi codeStr); [|discriminate].
  destruct (regexp_Compile pat); [|discriminate].
  destruct (MatchString _ tgt); [discriminate|].
  destruct pat; discriminate.
Qed.

(** C10 (empty pattern).  Given that the empty pattern compiles to a
    regular expression matching every string, a line with an empty
    PATTERN token that reaches the loop check is rejected there, no
    line makes [parseRedirectMatchLine] read [pattern[0]] out of
    range, and the only panic left is [regexp.MustCompile] refusing
    the pattern: on every line whose pattern compiles the function
    returns a rule or an error. *)
Theorem empty_pattern_safe (re0 : Regexp) :
  regexp_Compile EmptyString = Some re0 →
  (∀ s, MatchString re0 s = true) →
  ∀ line,
    parseRedirectMatchLine line ≠ Panic PanicIndexOutOfRange
    ∧ (∀ codeStr tgt n,
          strings.Split (strings.TrimSpace line) " "
            = [codeStr; EmptyString; tgt] →
          firstNonDigit 0 codeStr = None →
          strconv.Atoi codeStr = Some n →
          parseRedirectMatchLine line
            = Err (ErrLoopDetected EmptyString tgt))
    ∧ (∀ p, parseRedirectMatchLine line = Panic p →
            ∃ codeStr pat tgt,
              strings.Split (strings.TrimSpace line) " "
                = [codeStr; pat; tgt]
              ∧ p = PanicRegexpCompile pat
              ∧ regexp_Compile pat = None)
    ∧ (∀ codeStr pat tgt regex,
          strings.Split (strings.TrimSpace line) " "
            = [codeStr; pat; tgt] →
          regexp_Compile pat = Some regex →
          (∃ rd, parseRedirectMatchLine line = Ok rd)
          ∨ (∃ e, parseRedirectMatchLine line = Err e)).
Proof.
  intros Hc0 Hall line.
  assert (Hoob : parseRedirectMatchLine line ≠ Panic PanicIndexOutOfRange).
  { intros Hp. apply parseRedirectMatchLine_Panic in Hp.
    destruct Hp as (codeStr & pat & tgt & _ & [[Hp _]|(_ & -> & Hre)]);
      [discriminate|].
    destruct Hre as (regex & Hre & Hm).
    rewrite Hc0 in Hre. injection Hre as <-.
    rewrite Hall in Hm. discriminate. }
  split; [exact Hoob|]. split; [|split].
  - intros codeStr tgt n Hs Hd Ha.
    unfold parseRedirectMatchLine. rewrite Hs, Hd, Ha, Hc0, Hall.
    reflexivity.
  - intros p Hp. pose proof Hp as Hp'.
    apply parseRedirectMatchLine_Panic in Hp'.
    destruct Hp' as (codeStr & pat & tgt & Hs & [[-> Hn]|(-> & _)]).
    + exists codeStr, pat, tgt. auto.
    + contradiction.
  - intros codeStr pat tgt regex Hs Hc.
    destruct (parseRedirectMatchLine line) as [rd|e|p] eqn:Hp; eauto.
    exfalso. pose proof Hp as Hp'.
    apply parseRedirectMatchLine_Panic in Hp'.
    destruct Hp' as (c' & p' & t' & Hs' & [[-> Hn]|(-> & _)]).
    + rewrite Hs in Hs'. injection Hs' as <- <- <-. congruence.
    + contradiction.
Qed.

End CompilationClaims.

(** ** The rule loop *)

Section RuleLoop.
Context `{GoStd}.

Lemma matchAndReplace_no_match rd src :
  MatchString (pattern rd) src = false →
  matchAndReplace rd src = (EmptyString, false).
Proof. intros Hm. unfold matchAndReplace. rewrite Hm. reflexivity. Qed.

Lemma matchAndReplace_empty rd src :
  MatchString (pattern rd) src = true →
  ReplaceAllString (pattern rd) src (target rd) = EmptyString →
  matchAndReplace rd src = (EmptyString, false).
Proof.
  intros Hm He. unfold matchAndReplace. rewrite Hm, He. reflexivity.
Qed.

Lemma matchAndReplace_ok rd src t :
  matchAndReplace rd src = (t, true) →
  MatchString (pattern rd) src = true
  ∧ t = ReplaceAllString (pattern rd) src (target rd)
  ∧ t ≠ EmptyString.
Proof.
  unfold matchAndReplace.
  destruct (MatchString (pattern rd) src); [|discriminate].
  destruct (nonEmpty _) eqn:Hn; [|discriminate].
  intros [= <-]. apply StringFacts.nonEmpty_true in Hn. auto.
Qed.

(** A rule is skipped exactly when its pattern does not match the
    subject or its substitution is the empty string. *)
Lemma skips_iff r rd :
  skips r rd ↔
  MatchString (pattern rd) (matchSource rd r) = false
  ∨ ReplaceAllString (pattern rd) (matchSource rd r) (target rd)
    = EmptyString.
Proof.
  unfold skips, matchAndReplace.
  destruct (MatchString (pattern rd) (matchSource rd r)); [|tauto].
  destruct (nonEmpty _) eqn:Hn; cbn.
  - apply StringFacts.nonEmpty_true in Hn. split; [discriminate|].
    intros [?|?]; [discriminate | contradiction].
  - apply StringFacts.nonEmpty_false in Hn. tauto.
Qed.

Lemma rewriteRules_skip_one rd rest w r :
  skips r rd → rewriteRules (rd :: rest) w r = rewriteRules rest w r.
Proof.
  unfold skips. intros Hs. cbn [rewriteRules].
  destruct (matchAndReplace rd (matchSource rd r)) as [t ok].
  cbn in Hs. subst ok. reflexivity.
Qed.

Lemma rewriteRules_skip pre rest w r :
  Forall (skips r) pre →
  rewriteRules (pre ++ rest) w r = rewriteRules rest w r.
Proof.
  induction 1 as [|rd pre Hrd _ IH]; [reflexivity|].
  cbn [app]. rewrite rewriteRules_skip_one by exact Hrd. exact IH.
Qed.

Lemma rewriteRules_hit rd rest w r t :
  matchAndReplace rd (matchSource rd r) = (t, true) →
  rewriteRules (rd :: rest) w r = applyMatch rd (matchSource rd r) t w r.
Proof. intros Hm. cbn [rewriteRules]. rewrite Hm. reflexivity. Qed.

(** C2, amended (first match wins).  The first rule, in declaration
    order, whose pattern matches its subject with a substitution that
    is not empty decides the outcome: the outcome is that rule's
    effect, the same as if it were the only rule, whatever rules come
    after it. *)
Theorem first_match_wins pre rd post w r t :
  Forall (skips r) pre →
  matchAndReplace rd (matchSource rd r) = (t, true) →
  rewriteRules (pre ++ rd :: post) w r
    = applyMatch rd (matchSource rd r) t w r
  ∧ rewriteRules (pre ++ rd :: post) w r = rewriteRules [rd] w r.
Proof.
  intros Hpre Hm.
  rewrite rewriteRules_skip by exact Hpre.
  rewrite !(rewriteRules_hit _ _ _ _ _ Hm). auto.
Qed.

(** C3, amended (re-application).  A compiled rule's pattern does not
    match its literal target, so whenever match-and-replace returns
    exactly that target, applying the rule to its own output does not
    match. *)
Theorem literal_target_not_rematched line rd src :
  parseRedirectMatchLine line = Ok rd →
  matchAndReplace rd src = (target rd, true) →
  MatchString (pattern rd) (target rd) = false
  ∧ matchAndReplace rd (target rd) = (EmptyString, false).
Proof.
  intros Hok _.
  apply parseRedirectMatchLine_Ok in Hok.
  destruct Hok as (? & ? & ? & _ & _ & _ & _ & Hm & _).
  split; [exact Hm|]. apply matchAndReplace_no_match, Hm.
Qed.

(** C8 (passthrough).  With no primary subdomain configured and no
    rule whose pattern matches its subject, the next handler is
    called with the writer and the request as they came in. *)
Theorem passthrough e w r :
  PrimarySubdomain (options e) = EmptyString →
  Forall (λ rd, MatchString (pattern rd) (matchSource rd r) = false)
    (redirects e) →
  rewrite e w r = ServeNext w r.
Proof.
  intros Hp Hall. unfold rewrite. rewrite Hp. cbn.
  rewrite <- (app_nil_r (redirects e)).
  rewrite rewriteRules_skip; [reflexivity|].
  eapply Forall_impl; [exact Hall|].
  intros rd Hm. unfold skips.
  rewrite matchAndReplace_no_match by exact Hm. reflexivity.
Qed.

(** C9 (empty substitution).  A rule whose pattern matches its subject
    but whose substitution is the empty string reports no match; the
    loop goes on with the rules after it, and reaches the next handler
    when they are all skipped. *)
Theorem empty_substitution_falls_through rd rest w r :
  MatchString (pattern rd) (matchSource rd r) = true →
  ReplaceAllString (pattern rd) (matchSource rd r) (target rd)
    = EmptyString →
  matchAndReplace rd (matchSource rd r) = (EmptyString, false)
  ∧ rewriteRules (rd :: rest) w r = rewriteRules rest w r
  ∧ (Forall (skips r) rest →
     rewriteRules (rd :: rest) w r = ServeNext w r).
Proof.
  intros Hm He.
  pose proof (matchAndReplace_empty _ _ Hm He) as Hmr.
  assert (Hs : skips r rd) by (unfold skips; rewrite Hmr; reflexivity).
  split; [exact Hmr|]. split.
  - apply rewriteRules_skip_one, Hs.
  - intros Hrest. rewrite rewriteRules_skip_one by exact Hs.
    rewrite <- (app_nil_r rest). apply rewriteRules_skip, Hrest.
Qed.

End RuleLoop.

(** ** The primary subdomain *)

Section PrimarySubdomain.
Context `{GoStd}.

Lemma getDomain_registrable hostport host port domain :
  net.SplitHostPort hostport = Some (host, port) →
  isLoopback host = false →
  EffectiveTLDPlusOne host = Some domain →
  getDomain hostport = domain.
Proof.
  intros Hs Hl He. unfold getDomain. rewrite Hs, Hl, He. reflexivity.
Qed.

(** The request came in on the bare root domain. *)
Lemma rewrite_root_domain e w r :
  let primary := PrimarySubdomain (options e) in
  let hostport := getHost r in
  let root := getDomain hostport +:+ getPort hostport in
  primary ≠ EmptyString →
  domainValidator e (getDomain hostport) = true →
  strings.TrimSuffix hostport root = EmptyString →
  rewrite e w r
  = HttpRedirect w (http.withHosts r (primary +:+ root))
      (url_String (http.URL (http.withHosts r (primary +:+ root))))
      http.StatusMovedPermanently.
Proof.
  cbn zeta. intros Hp Hv Hs. unfold rewrite.
  apply StringFacts.nonEmpty_true in Hp. rewrite Hp, Hv, Hs.
  reflexivity.
Qed.

(** C4 (bare root).  An engine built with primary subdomain ["www"],
    whatever its rules, answers a request for host
    ["mydomain.com:8080"] and path ["/about"] -- the registrable
    domain of ["mydomain.com"] being itself -- by [http.Redirect] with
    status 301 to the URL of the request with its host replaced by
    ["www.mydomain.com:8080"] and its path kept; no rule is looked
    at. *)
Theorem bare_root_redirect opts e w r :
  PrimarySubdomain opts = "www" →
  New opts = Ok e →
  getHost r = "mydomain.com:8080" →
  url.Path (http.URL r) = "/about" →
  EffectiveTLDPlusOne "mydomain.com" = Some "mydomain.com" →
  let r' := http.withHosts r "www.mydomain.com:8080" in
  rewrite e w r = HttpRedirect w r' (url_String (http.URL r')) 301
  ∧ http.Host r' = "www.mydomain.com:8080"
  ∧ url.Host (http.URL r') = "www.mydomain.com:8080"
  ∧ url.Path (http.URL r') = "/about"
  ∧ url.RawQuery (http.URL r') = url.RawQuery (http.URL r)
  ∧ url.Scheme (http.URL r') = url.Scheme (http.URL r).
Proof.
  intros Hwww Hnew Hhost Hpath Hpsl. cbn zeta.
  split; [|cbn; auto].
  apply New_Ok in Hnew. destruct Hnew as (_ & Hp & Hv).
  rewrite Hwww in Hp.
  assert (Hd : getDomain "mydomain.com:8080" = "mydomain.com").
  { eapply getDomain_registrable; [reflexivity | reflexivity | exact Hpsl]. }
  rewrite rewrite_root_domain.
  - rewrite Hp, Hhost, Hd. reflexivity.
  - rewrite Hp. discriminate.
  - rewrite Hv, Hhost, Hd. reflexivity.
  - rewrite Hhost, Hd. reflexivity.
Qed.

(** The request came in on a host whose computed subdomain is the
    primary subdomain: both host fields lose that prefix and the rules
    are tried on the request so changed. *)
Lemma rewrite_primary_subdomain e w r :
  let primary := PrimarySubdomain (options e) in
  let hostport := getHost r in
  let root := getDomain hostport +:+ getPort hostport in
  primary ≠ EmptyString →
  domainValidator e (getDomain hostport) = true →
  strings.TrimSuffix hostport root = primary →
  rewrite e w r
  = rewriteRules (redirects e) w
      (http.withHosts r (strings.TrimPrefix hostport primary)).
Proof.
  cbn zeta. intros Hp Hv Hs. unfold rewrite.
  pose proof Hp as Hn. apply StringFacts.nonEmpty_true in Hn.
  rewrite Hn, Hv, Hs.
  apply String.eqb_neq in Hp. rewrite Hp, String.eqb_refl.
  reflexivity.
Qed.

(** C5 (primary subdomain).  When the host of a request is the primary
    subdomain followed by the root domain and the port -- its subdomain
    is the primary subdomain -- and the root domain is not a loopback,
    the request goes to the rule loop with both host fields set to the
    root domain and the port; nothing is sent by this step. *)
Theorem primary_subdomain_normalized e w r :
  let primary := PrimarySubdomain (options e) in
  let hostport := getHost r in
  let root := getDomain hostport +:+ getPort hostport in
  primary ≠ EmptyString →
  domainValidator e (getDomain hostport) = true →
  hostport = primary +:+ root →
  rewrite e w r = rewriteRules (redirects e) w (http.withHosts r root)
  ∧ http.Host (http.withHosts r root) = root
  ∧ url.Host (http.URL (http.withHosts r root)) = root
  ∧ strings.TrimSuffix hostport root = primary
  ∧ strings.TrimPrefix hostport primary = root.
Proof.
  cbn zeta. intros Hp Hv Hh.
  assert (Hs : strings.TrimSuffix (getHost r)
                 (getDomain (getHost r) +:+ getPort (getHost r))
               = PrimarySubdomain (options e)).
  { rewrite Hh at 1. apply StringFacts.TrimSuffix_append. }
  assert (Ht : strings.TrimPrefix (getHost r) (PrimarySubdomain (options e))
               = getDomain (getHost r) +:+ getPort (getHost r)).
  { rewrite Hh at 1. apply StringFacts.TrimPrefix_append. }
  split; [|auto].
  rewrite rewrite_primary_subdomain by assumption.
  rewrite Ht. reflexivity.
Qed.

End PrimarySubdomain.

(** ** The redirect writer *)

Section RedirectWriter.
Context `{GoStd}.

(** C7, amended (redirect response).  [redirectAbs] sets [Location]
    to the target; sets [Content-Type] to ["text/html; charset=utf-8"]
    when none was set and the method is GET or HEAD, and leaves it as
    it was otherwise; leaves every other header alone; writes the
    status line with the given code; and then, for GET only and only
    when no [Content-Type] was set, writes one body: a link to the
    escaped target whose text is the status text. *)
Theorem redirectAbs_response w r url_ code :
  let w' := redirectAbs w r url_ code in
  let hadCT :=
    bool_decide (is_Some (http.Header w !! contentTypeHeaderKey)) in
  let isGet := String.eqb (http.Method r) "GET" in
  let isHead := String.eqb (http.Method r) "HEAD" in
  http.Header w' !! "Location" = Some [url_]
  ∧ http.Header w' !! contentTypeHeaderKey
    = (if negb hadCT && (isGet || isHead)
       then Some ["text/html; charset=utf-8"]
       else http.Header w !! contentTypeHeaderKey)
  ∧ (∀ key, key ≠ "Location" → key ≠ contentTypeHeaderKey →
            http.Header w' !! key = http.Header w !! key)
  ∧ http.calls w'
    = http.calls w ++
      http.WriteHeaderCall code ::
      (if negb hadCT && isGet
       then [http.WriteCall
               ("<a href=" +:+ DQUOTE +:+ HTMLEscapeString url_
                +:+ DQUOTE +:+ ">" +:+ StatusText code +:+ "</a>."
                +:+ LF +:+ LF)]
       else []).
Proof.
  cbn zeta.
  unfold redirectAbs, Fprintln, http.Write, http.WriteHeader,
    http.HeaderSet, http.MethodGet, http.MethodHead,
    contentTypeHeaderKey.
  destruct (bool_decide _), (String.eqb (http.Method r) "GET"),
    (String.eqb (http.Method r) "HEAD"); cbn;
    (split; [|split; [|split]]);
    try (intros key Hl Hc);
    rewrite <- ?app_assoc, ?StringFacts.append_assoc;
    simplify_map_eq; reflexivity.
Qed.

End RedirectWriter.

(** ** The scenarios, evaluated *)

Section Scenarios.
Import Scenario.
Local Existing Instance Sample.std.

Local Ltac run := reflexivity.

(** The rules of the README compile, and the requests of its table
    are answered as it says. *)
Example readme_seo :
  rewrite (engine readme EmptyString) w0
    (request "GET" "localhost:8080" "/seo/about")
  = HttpRedirect w0 (request "GET" "localhost:8080" "/seo/about")
      "/about" 301.
Proof. run. Qed.

Example readme_docs :
  rewrite (engine readme "www") w0
    (request "GET" "www.mydomain.com:8080" "/docs/v12/hello")
  = HttpRedirect w0
      (http.withHosts
         (request "GET" "www.mydomain.com:8080" "/docs/v12/hello")
         "mydomain.com:8080")
      "/docs" 301.
Proof. run. Qed.

Example readme_old :
  rewrite (engine readme "www") w0
    (request "GET" "www.mydomain.com:8080" "/oldindex/random")
  = HttpRedirect w0
      (http.withHosts
         (request "GET" "www.mydomain.com:8080" "/oldindex/random")
         "mydomain.com:8080")
      "/" 301.
Proof. run. Qed.

(** An internal rewrite: the request goes on with a new URL. *)
Example users_json :
  rewrite (engine ["0 /(.*)\.(json|xml) /$1?format=$2"] EmptyString) w0
    (request "GET" "localhost:8080" "/users.json")
  = ServeNext w0
      (http.withURL (request "GET" "localhost:8080" "/users.json")
         (url.mkURL EmptyString EmptyString "/users" "format=json")).
Proof. run. Qed.

(** A loopback host is left alone whatever the primary subdomain. *)
Example loopback_untouched :
  rewrite (engine [] "www") w0 (request "GET" "localhost:8080" "/about")
  = ServeNext w0 (request "GET" "localhost:8080" "/about").
Proof. run. Qed.

(** The loop check belongs to compilation: a rule that was not built
    by [parseRedirectMatchLine] and whose target matches its pattern
    is applied by the rule loop like any other. *)
Example looping_rule_applied :
  Forall (λ rd, MatchString (pattern rd) (target rd) = true) looping
  ∧ rewriteRules looping w0 (request "GET" "localhost:8080" "/a")
    = HttpRedirect w0 (request "GET" "localhost:8080" "/a") "/a/b" 301.
Proof. split; [constructor; [run | constructor] | run]. Qed.

(** C1, witness: a line whose target matches its pattern, a rule of
    the README, and the engine of the README. *)
Lemma loop_check_witness :
  parseRedirectMatchLine "301 /a /a/b"
    = Err (ErrLoopDetected "/a" "/a/b")
  ∧ MatchString (pattern (rule "301 /seo/(.*) /$1"))
      (target (rule "301 /seo/(.*) /$1")) = false
  ∧ Forall (λ rd, MatchString (pattern rd) (target rd) = false)
      (redirects (engine readme "www")).
Proof.
  destruct (loop_check (H:=Sample.std)) as (Hloop & Hrule & Hnew).
  split; [|split].
  - apply (Hloop "301 /a /a/b" "301" "/a" "/a/b" 301
             (Sample.mkRegexp
                (Sample.Seq (Sample.Chr "/") (Sample.Chr "a")) 0)); run.
  - apply (Hrule "301 /seo/(.*) /$1"). run.
  - apply (Hnew (options readme "www")). run.
Defined.

(** C2, as stated, fails: both rules' patterns match the subject
    ["/a"], the first rule alone lets the request through, and with
    the second rule after it the request is redirected by the
    second. *)
Lemma first_match_shadowed :
  let r := request "GET" "localhost:8080" "/a" in
  let rd1 := rule "301 /a $9" in
  let rd2 := rule "302 /a /b" in
  rules shadowed = [rd1; rd2]
  ∧ matchSource rd1 r = "/a"
  ∧ matchSource rd2 r = "/a"
  ∧ MatchString (pattern rd1) "/a" = true
  ∧ MatchString (pattern rd2) "/a" = true
  ∧ rewriteRules [rd1] w0 r = ServeNext w0 r
  ∧ rewriteRules [rd1; rd2] w0 r = HttpRedirect w0 r "/b" 302
  ∧ rewrite (engine shadowed EmptyString) w0 r
    = HttpRedirect w0 r "/b" 302.
Proof. cbn zeta. repeat split; run. Qed.

(** C2, witness: the second rule of the README decides, the first
    being skipped and the third never reached. *)
Lemma first_match_wins_witness :
  let r := request "GET" "localhost:8080" "/docs/v12/hello" in
  let rd1 := rule "301 /seo/(.*) /$1" in
  let rd2 := rule "301 /docs/v12(.*) /docs" in
  let rd3 := rule "301 /old(.*) /" in
  rewriteRules ([rd1] ++ rd2 :: [rd3]) w0 r
    = applyMatch rd2 (matchSource rd2 r) "/docs" w0 r
  ∧ rewriteRules ([rd1] ++ rd2 :: [rd3]) w0 r = rewriteRules [rd2] w0 r.
Proof.
  cbn zeta. apply (first_match_wins (H:=Sample.std)).
  - constructor; [run | constructor].
  - run.
Defined.

(** C3, as stated, fails: the first rule of the README turns
    ["/seo//seo/x"] into ["//seo/x"], which its pattern matches
    again, and a second application rewrites it once more. *)
Lemma output_rematched :
  let rd := rule "301 /seo/(.*) /$1" in
  parseRedirectMatchLine "301 /seo/(.*) /$1" = Ok rd
  ∧ matchAndReplace rd "/seo//seo/x" = ("//seo/x", true)
  ∧ MatchString (pattern rd) "//seo/x" = true
  ∧ matchAndReplace rd "//seo/x" = ("//x", true).
Proof. cbn zeta. repeat split; run. Qed.

(** C3, witness: the second rule of the README answers with its
    literal target, which it does not match. *)
Lemma literal_target_not_rematched_witness :
  let rd := rule "301 /docs/v12(.*) /docs" in
  matchAndReplace rd "/docs/v12/hello" = ("/docs", true)
  ∧ MatchString (pattern rd) "/docs" = false
  ∧ matchAndReplace rd "/docs" = (EmptyString, false).
Proof.
  cbn zeta. split; [run|].
  apply (literal_target_not_rematched (H:=Sample.std)
           "301 /docs/v12(.*) /docs" (rule "301 /docs/v12(.*) /docs")
           "/docs/v12/hello"); run.
Defined.

(** C4, witness: the engine of the README on the request of the
    scenario; the redirect goes to ["//www.mydomain.com:8080/about"]. *)
Lemma bare_root_redirect_witness :
  let r := request "GET" "mydomain.com:8080" "/about" in
  rewrite (engine readme "www") w0 r
  = HttpRedirect w0 (http.withHosts r "www.mydomain.com:8080")
      "//www.mydomain.com:8080/about" 301.
Proof.
  cbn zeta.
  apply (bare_root_redirect (H:=Sample.std) (options readme "www")
           (engine readme "www") w0
           (request "GET" "mydomain.com:8080" "/about")); run.
Defined.

(** C5, witness: the engine of the README on a request for the
    primary subdomain; the host becomes ["mydomain.com:8080"] and the
    rules are tried on the request so changed. *)
Lemma primary_subdomain_normalized_witness :
  let r := request "GET" "www.mydomain.com:8080" "/seo/about" in
  let r' := http.withHosts r "mydomain.com:8080" in
  rewrite (engine readme "www") w0 r
  = rewriteRules (redirects (engine readme "www")) w0 r'
  ∧ rewriteRules (redirects (engine readme "www")) w0 r'
    = HttpRedirect w0 r' "/about" 301
  ∧ http.Host r' = "mydomain.com:8080".
Proof.
  cbn zeta.
  pose proof (primary_subdomain_normalized (H:=Sample.std)
                (engine readme "www") w0
                (request "GET" "www.mydomain.com:8080" "/seo/about"))
    as Hn.
  cbn zeta in Hn.
  destruct Hn as (Hrw & Hhost & _); [discriminate | run | run |].
  split; [exact Hrw|]. split; [run | exact Hhost].
Defined.

(** C6, as stated, fails: a line of four white-space-separated tokens
    compiles to a rule, a line of two reaches the loop check, and a
    line of three is refused as invalid. *)
Lemma tokens_not_parts :
  spec_tokens tabbed = ["301"; "/a"; "b"; "/c"]
  ∧ parseRedirectMatchLine tabbed = Ok (rule tabbed)
  ∧ code (rule tabbed) = 301
  ∧ target (rule tabbed) = "/c"
  ∧ spec_tokens "301  /b" = ["301"; "/b"]
  ∧ parseRedirectMatchLine "301  /b"
    = Err (ErrLoopDetected EmptyString "/b")
  ∧ spec_tokens "301 /a  /b" = ["301"; "/a"; "/b"]
  ∧ parseRedirectMatchLine "301 /a  /b"
    = Err (ErrInvalidLine "301 /a  /b").
Proof. repeat split; run. Qed.

(** C6, witness: the lines above, by their parts. *)
Lemma tokenization_witness :
  parseRedirectMatchLine tabbed ≠ Err (ErrInvalidLine tabbed)
  ∧ parseRedirectMatchLine "301 /a  /b"
    = Err (ErrInvalidLine "301 /a  /b").
Proof.
  split.
  - intros Hinv.
    apply (proj1 (tokenization (H:=Sample.std) tabbed)) in Hinv.
    apply Hinv. run.
  - apply (proj1 (tokenization (H:=Sample.std) "301 /a  /b")).
    cbn zeta. vm_compute. discriminate.
Defined.

(** C7, as stated, fails: on a GET request whose response already has
    a [Content-Type], [redirectAbs] writes the status line and no
    body. *)
Lemma redirect_without_body :
  let r := request "GET" "test.mydomain.com:8080" "/" in
  let w' := redirectAbs wCT r "http://newtest.mydomain.com:8080/" 301 in
  http.Method r = "GET"
  ∧ http.calls w' = [http.WriteHeaderCall 301]
  ∧ http.Header w' !! "Location"
    = Some ["http://newtest.mydomain.com:8080/"]
  ∧ http.Header w' !! "Content-Type" = Some ["text/plain"].
Proof. cbn zeta. repeat split; run. Qed.

(** C7, witness: the same redirect on a fresh writer, for GET and for
    HEAD. *)
Lemma redirectAbs_response_witness :
  let get := request "GET" "test.mydomain.com:8080" "/" in
  let head := request "HEAD" "test.mydomain.com:8080" "/" in
  let u := "http://newtest.mydomain.com:8080/?a=1&b=2" in
  http.calls (redirectAbs w0 get u 301)
  = [http.WriteHeaderCall 301;
     http.WriteCall
       ("<a href=" +:+ DQUOTE
        +:+ "http://newtest.mydomain.com:8080/?a=1&amp;b=2" +:+ DQUOTE
        +:+ ">Moved Permanently</a>." +:+ LF +:+ LF)]
  ∧ http.calls (redirectAbs w0 head u 301) = [http.WriteHeaderCall 301]
  ∧ http.Header (redirectAbs w0 head u 301) !! "Content-Type"
    = Some ["text/html; charset=utf-8"]
  ∧ http.Header (redirectAbs w0 get u 301) !! "Location" = Some [u].
Proof.
  cbn zeta.
  pose proof (redirectAbs_response (H:=Sample.std) w0
                (request "GET" "test.mydomain.com:8080" "/")
                "http://newtest.mydomain.com:8080/?a=1&b=2" 301) as Hg.
  pose proof (redirectAbs_response (H:=Sample.std) w0
                (request "HEAD" "test.mydomain.com:8080" "/")
                "http://newtest.mydomain.com:8080/?a=1&b=2" 301) as Hh.
  cbn zeta in Hg, Hh. unfold contentTypeHeaderKey in Hh.
  destruct Hg as (Hgl & _ & _ & Hgc), Hh as (_ & Hhc & _ & Hhw).
  split; [rewrite Hgc; run|]. split; [rewrite Hhw; run|].
  split; [rewrite Hhc; run | exact Hgl].
Defined.

(** C8, witness: the engine of the README without primary subdomain
    on a path none of its rules matches. *)
Lemma passthrough_witness :
  let r := request "GET" "mydomain.com:8080" "/about" in
  rewrite (engine readme EmptyString) w0 r = ServeNext w0 r.
Proof.
  cbn zeta. apply (passthrough (H:=Sample.std)); [run|].
  change (redirects (engine readme EmptyString))
    with [rule "301 /seo/(.*) /$1"; rule "301 /docs/v12(.*) /docs";
          rule "301 /old(.*) /"].
  repeat (constructor; [run|]). constructor.
Defined.

(** C9, witness: the template [$9] names no group of [/a]. *)
Lemma empty_substitution_falls_through_witness :
  let r := request "GET" "localhost:8080" "/a" in
  let rd := rule "301 /a $9" in
  matchAndReplace rd (matchSource rd r) = (EmptyString, false)
  ∧ rewriteRules [rd; rule "302 /a /b"] w0 r
    = rewriteRules [rule "302 /a /b"] w0 r
  ∧ rewriteRules [rd; rule "301 /old(.*) /"] w0 r = ServeNext w0 r.
Proof.
  cbn zeta.
  pose proof (empty_substitution_falls_through (H:=Sample.std)
                (rule "301 /a $9")) as He.
  split; [|split].
  - apply (He [] w0 (request "GET" "localhost:8080" "/a")); run.
  - apply (He [rule "302 /a /b"] w0
             (request "GET" "localhost:8080" "/a")); run.
  - apply (He [rule "301 /old(.*) /"] w0
             (request "GET" "localhost:8080" "/a")); try run.
    constructor; [run | constructor].
Defined.

(** The empty pattern compiles under [Sample.std] and matches every
    string. *)
Lemma Sample_empty_pattern s :
  MatchString (Sample.mkRegexp Sample.Eps 0) s = true.
Proof.
  cbn. unfold Sample.MatchString. cbn.
  destruct (list_ascii_of_string s); reflexivity.
Qed.

(** C10, witness: a line with two spaces in a row has an empty
    pattern, and is refused by the loop check. *)
Lemma empty_pattern_safe_witness :
  parseRedirectMatchLine "301  /b" ≠ Panic PanicIndexOutOfRange
  ∧ parseRedirectMatchLine "301  /b"
    = Err (ErrLoopDetected EmptyString "/b").
Proof.
  pose proof (empty_pattern_safe (H:=Sample.std)
                (Sample.mkRegexp Sample.Eps 0) eq_refl
                Sample_empty_pattern "301  /b") as (Hoob & Hloop & _).
  split; [exact Hoob|].
  apply (Hloop "301" "/b" 301); run.
Defined.

End Scenarios.

(** ** More facts about the string functions *)

Module IndexFacts.
Import strings StringFacts.

Lemma count_append c a b :
  count c (a +:+ b) = (count c a + count c b)%nat.
Proof.
  induction a as [|x a IH]; [reflexivity|].
  rewrite append_cons. cbn [count]. rewrite IH. lia.
Qed.

Lemma length_append a b :
  String.length (a +:+ b) = (String.length a + String.length b)%nat.
Proof.
  induction a as [|x a IH]; [reflexivity|].
  rewrite append_cons. cbn [String.length]. rewrite IH. reflexivity.
Qed.

Lemma IndexByte_absent s c : count c s = 0%nat → IndexByte s c = -1.
Proof.
  induction s as [|a s IH]; [reflexivity|].
  cbn [count IndexByte]. destruct (Ascii.eqb a c); [discriminate|].
  intros Hc. rewrite IH by exact Hc. reflexivity.
Qed.

Lemma LastIndexByte_absent s c :
  count c s = 0%nat → LastIndexByte s c = -1.
Proof.
  induction s as [|a s IH]; [reflexivity|].
  cbn [count LastIndexByte]. destruct (Ascii.eqb a c); [discriminate|].
  intros Hc. rewrite IH by exact Hc. reflexivity.
Qed.

Lemma IndexByte_first h c t :
  count c h = 0%nat →
  IndexByte (h +:+ String c t) c = Z.of_nat (String.length h).
Proof.
  induction h as [|a h IH]; intros Hc.
  - rewrite append_nil_l. cbn [IndexByte String.length].
    rewrite Ascii.eqb_refl. reflexivity.
  - rewrite append_cons. cbn [count] in Hc. cbn [IndexByte String.length].
    destruct (Ascii.eqb a c); [discriminate|].
    rewrite IH by exact Hc.
    destruct (Z.ltb_spec (Z.of_nat (String.length h)) 0); lia.
Qed.

Lemma LastIndexByte_last h c t :
  count c t = 0%nat →
  LastIndexByte (h +:+ String c t) c = Z.of_nat (String.length h).
Proof.
  intros Hc. induction h as [|a h IH].
  - rewrite append_nil_l. cbn [LastIndexByte String.length].
    rewrite (LastIndexByte_absent _ _ Hc), Ascii.eqb_refl. reflexivity.
  - rewrite append_cons. cbn [LastIndexByte String.length]. rewrite IH.
    destruct (Z.leb_spec 0 (Z.of_nat (String.length h))); lia.
Qed.

Lemma upto_append h t : upto (h +:+ t) (Z.of_nat (String.length h)) = h.
Proof.
  unfold upto. rewrite Nat2Z.id.
  induction h as [|a h IH]; [destruct t; reflexivity|].
  rewrite append_cons. cbn [String.length String.substring].
  rewrite IH. reflexivity.
Qed.

Lemma from_append h t : from (h +:+ t) (Z.of_nat (String.length h)) = t.
Proof. unfold from. rewrite Nat2Z.id. apply drop_append. Qed.

Lemma HasSuffix_append p suffix : HasSuffix (p +:+ suffix) suffix = true.
Proof. unfold HasSuffix. rewrite rev_append. apply prefix_append. Qed.

Lemma TrimSuffix_self s : TrimSuffix s s = EmptyString.
Proof. apply (TrimSuffix_append EmptyString s). Qed.

(** Joining the parts of [Split] with the separator gives the string
    back. *)
Lemma Split_join s sep :
  String.concat (String sep EmptyString) (Split s sep) = s.
Proof.
  induction s as [|a s IH]; [reflexivity|].
  cbn [Split]. destruct (Ascii.eqb_spec a sep) as [->|Hne].
  - destruct (Split s sep) as [|p ps] eqn:Hs.
    + pose proof (Split_length s sep) as Hl. rewrite Hs in Hl.
      discriminate.
    + change (String.concat (String sep EmptyString)
                (EmptyString :: p :: ps))
        with (EmptyString +:+ String sep EmptyString
              +:+ String.concat (String sep EmptyString) (p :: ps)).
      rewrite IH. reflexivity.
  - destruct (Split s sep) as [|p ps] eqn:Hs.
    + pose proof (Split_length s sep) as Hl. rewrite Hs in Hl.
      discriminate.
    + destruct ps as [|q qs].
      * cbn in IH |- *. congruence.
      * change (String.concat (String sep EmptyString) (p :: q :: qs))
          with (p +:+ String sep EmptyString
                +:+ String.concat (String sep EmptyString) (q :: qs))
          in IH.
        change (String.concat (String sep EmptyString)
                  (String a p :: q :: qs))
          with (String a p +:+ String sep EmptyString
                +:+ String.concat (String sep EmptyString) (q :: qs)).
        rewrite append_cons, IH. reflexivity.
Qed.

(** [trimFront] returns the empty string or a string whose first byte
    is no ASCII space. *)
Lemma trimFront_head back s :
  match trimFront back s with
  | EmptyString => True
  | String c _ => isAsciiSpace c = false
  end.
Proof.
  remember (String.length s) as n eqn:Hn.
  revert s Hn. induction n as [n IH] using lt_wf_ind. intros s Hn.
  destruct s as [|c1 s1]; [exact I|].
  cbn [trimFront]. destruct (isAsciiSpace c1) eqn:H1.
  { apply (IH (String.length s1)); [subst; cbn; lia | reflexivity]. }
  destruct s1 as [|c2 s2]; [exact H1|].
  destruct (if back then isSpace2 c2 c1 else isSpace2 c1 c2).
  { apply (IH (String.length s2)); [subst; cbn; lia | reflexivity]. }
  destruct s2 as [|c3 s3]; [exact H1|].
  destruct (if back then isSpace3 c3 c2 c1 else isSpace3 c1 c2 c3).
  { apply (IH (String.length s3)); [subst; cbn; lia | reflexivity]. }
  exact H1.
Qed.

(** [trimFront] returns what is left of its argument after a prefix. *)
Lemma trimFront_suffix back s : ∃ pre, s = pre +:+ trimFront back s.
Proof.
  remember (String.length s) as n eqn:Hn.
  revert s Hn. induction n as [n IH] using lt_wf_ind. intros s Hn.
  destruct s as [|c1 s1]; [exists EmptyString; reflexivity|].
  cbn [trimFront]. destruct (isAsciiSpace c1).
  { destruct (IH (String.length s1)) with (s := s1) as [pre Hp];
      [subst; cbn; lia | reflexivity |].
    exists (String c1 pre). rewrite append_cons, <- Hp. reflexivity. }
  destruct s1 as [|c2 s2]; [exists EmptyString; reflexivity|].
  destruct (if back then isSpace2 c2 c1 else isSpace2 c1 c2).
  { destruct (IH (String.length s2)) with (s := s2) as [pre Hp];
      [subst; cbn; lia | reflexivity |].
    exists (String c1 (String c2 pre)).
    rewrite !append_cons, <- Hp. reflexivity. }
  destruct s2 as [|c3 s3]; [exists EmptyString; reflexivity|].
  destruct (if back then isSpace3 c3 c2 c1 else isSpace3 c1 c2 c3).
  { destruct (IH (String.length s3)) with (s := s3) as [pre Hp];
      [subst; cbn; lia | reflexivity |].
    exists (String c1 (String c2 (String c3 pre))).
    rewrite !append_cons, <- Hp. reflexivity. }
  exists EmptyString. reflexivity.
Qed.

Lemma rev_cons c s : rev (String c s) = rev s +:+ String c EmptyString.
Proof. apply (rev_append (String c EmptyString) s). Qed.

(** [TrimSpace] returns a string that neither starts nor ends with an
    ASCII space. *)
Lemma TrimSpace_ends s :
  (∀ c t, TrimSpace s = String c t → isAsciiSpace c = false)
  ∧ (∀ t c, TrimSpace s = t +:+ String c EmptyString →
            isAsciiSpace c = false).
Proof.
  unfold TrimSpace.
  set (x := trimFront false s).
  pose proof (trimFront_head false s) as Hx. fold x in Hx.
  pose proof (trimFront_head true (rev x)) as Hy.
  destruct (trimFront_suffix true (rev x)) as [pre Hpre].
  set (y := trimFront true (rev x)) in *.
  assert (Hxy : x = rev y +:+ rev pre).
  { rewrite <- (rev_involutive x), Hpre. apply rev_append. }
  split.
  - intros c t Hc. rewrite Hc in Hxy. rewrite append_cons in Hxy.
    rewrite Hxy in Hx. exact Hx.
  - intros t c Hc.
    assert (Hy' : y = String c (rev t)).
    { rewrite <- (rev_involutive y), Hc, rev_append. reflexivity. }
    rewrite Hy' in Hy. exact Hy.
Qed.

End IndexFacts.

(** ** More on rule compilation *)

Section MoreCompilation.
Context `{GoStd}.

Lemma Split_no_sep s sep :
  Forall (λ p, strings.count sep p = 0%nat) (strings.Split s sep).
Proof.
  induction s as [|a s IH]; [repeat constructor|].
  cbn [strings.Split]. destruct (Ascii.eqb a sep) eqn:Ha.
  - constructor; [reflexivity | exact IH].
  - destruct (strings.Split s sep) as [|p ps].
    + constructor; [|constructor]. cbn. rewrite Ha. reflexivity.
    + inversion IH as [|? ? Hp Hps]; subst.
      constructor; [|exact Hps]. cbn [strings.count]. rewrite Ha.
      exact Hp.
Qed.

Lemma Split_TrimSpace_three line codeStr pat tgt :
  strings.Split (strings.TrimSpace line) " " = [codeStr; pat; tgt] →
  codeStr ≠ EmptyString
  ∧ tgt ≠ EmptyString
  ∧ Forall (λ p, strings.count " " p = 0%nat) [codeStr; pat; tgt]
  ∧ strings.TrimSpace line = codeStr +:+ " " +:+ pat +:+ " " +:+ tgt.
Proof.
  intros Hs.
  pose proof (IndexFacts.Split_join (strings.TrimSpace line) " ") as Hj.
  rewrite Hs in Hj.
  change (String.concat " " [codeStr; pat; tgt])
    with (codeStr +:+ " " +:+ pat +:+ " " +:+ tgt) in Hj.
  destruct (IndexFacts.TrimSpace_ends line) as [Hhead Hlast].
  split; [|split; [|split]].
  - intros ->. rewrite StringFacts.append_nil_l in Hj.
    symmetry in Hj. apply Hhead in Hj. discriminate.
  - intros ->.
    assert (Hj' : strings.TrimSpace line
                  = (codeStr +:+ " " +:+ pat) +:+ " ").
    { rewrite <- Hj, !StringFacts.append_assoc. reflexivity. }
    apply Hlast in Hj'. discriminate.
  - rewrite <- Hs. apply Split_no_sep.
  - symmetry. exact Hj.
Qed.

(** X1 (tokens).  In a line that passes tokenization the CODE and
    TARGET tokens are not empty (the PATTERN token may be), no token
    holds a space, and the three tokens joined by single spaces are
    the line without the white space around it. *)
Theorem tokens_shape line codeStr pat tgt :
  strings.Split (strings.TrimSpace line) " " = [codeStr; pat; tgt] →
  codeStr ≠ EmptyString
  ∧ tgt ≠ EmptyString
  ∧ Forall (λ p, strings.count " " p = 0%nat) [codeStr; pat; tgt]
  ∧ strings.TrimSpace line = codeStr +:+ " " +:+ pat +:+ " " +:+ tgt.
Proof. apply Split_TrimSpace_three. Qed.

Lemma isDigit_digit ch :
  isDigit ch = true →
  ∃ d, strconv.digit ch = Some d ∧ 0 ≤ d ≤ 9.
Proof.
  unfold isDigit, strconv.digit. intros Hd. rewrite Hd.
  apply andb_true_iff in Hd. destruct Hd as [H1 H2].
  apply Z.leb_le in H1, H2. eexists. split; [reflexivity | lia].
Qed.

Lemma isDigit_not_sign ch :
  isDigit ch = true → Ascii.eqb ch "+" || Ascii.eqb ch "-" = false.
Proof.
  intros Hd.
  destruct (Ascii.eqb_spec ch "+") as [->|_]; [discriminate|].
  destruct (Ascii.eqb_spec ch "-") as [->|_]; [discriminate|].
  reflexivity.
Qed.

Lemma digits_of_digit_string i acc s :
  firstNonDigit i s = None → 0 ≤ acc →
  ∃ v, strconv.digits acc s = Some v ∧ acc ≤ v.
Proof.
  revert i acc. induction s as [|ch s IH]; intros i acc Hf Hacc.
  - exists acc. split; [reflexivity | lia].
  - cbn [firstNonDigit] in Hf. destruct (isDigit ch) eqn:Hd; [|discriminate].
    destruct (isDigit_digit ch Hd) as (d & Hdig & Hr).
    cbn [strconv.digits]. rewrite Hdig.
    destruct (IH (i + 1) (10 * acc + d) Hf ltac:(lia)) as (v & Hv & Hle).
    exists v. split; [exact Hv | lia].
Qed.

(** [Atoi] on a string of digits: its decimal value, or the range
    error. *)
Lemma Atoi_digit_string s :
  s ≠ EmptyString → firstNonDigit 0 s = None →
  ∃ v, strconv.digits 0 s = Some v ∧ 0 ≤ v
       ∧ strconv.Atoi s
         = (if v <=? strconv.maxInt then Some v else None).
Proof.
  intros Hne Hf.
  destruct (digits_of_digit_string 0 0 s Hf ltac:(lia)) as (v & Hv & Hle).
  exists v. split; [exact Hv|]. split; [exact Hle|].
  destruct s as [|ch s]; [contradiction|].
  unfold strconv.Atoi.
  cbn [firstNonDigit] in Hf. destruct (isDigit ch) eqn:Hd; [|discriminate].
  rewrite (isDigit_not_sign ch Hd), Hv. cbn.
  unfold strconv.inRange.
  replace (strconv.minInt <=? v) with true
    by (symmetry; apply Z.leb_le; unfold strconv.minInt; lia).
  reflexivity.
Qed.

(** X2 (status code).  Every rule that compiles has a status code
    between 0 and the largest [int]; it is an internal rewrite exactly
    when its code is 0, and a path rule exactly when its PATTERN token
    starts with a slash. *)
Theorem compiled_code line rd :
  parseRedirectMatchLine line = Ok rd →
  0 ≤ code rd ≤ strconv.maxInt
  ∧ noRedirect rd = (code rd =? 0)
  ∧ ∃ codeStr pat,
      strings.Split (strings.TrimSpace line) " "
        = [codeStr; pat; target rd]
      ∧ strconv.digits 0 codeStr = Some (code rd)
      ∧ isRelativePattern rd = strings.HasPrefix pat "/".
Proof.
  intros Hok. apply parseRedirectMatchLine_Ok in Hok.
  destruct Hok as (codeStr & c & pat & Hs & Hd & Ha & _ & _ & Hn & Hr).
  destruct (Split_TrimSpace_three _ _ _ _ Hs) as (Hne & _).
  destruct (Atoi_digit_string codeStr Hne Hd) as (v & Hv & H0 & Hat).
  rewrite Ha in Hat.
  destruct (Z.leb_spec v strconv.maxInt) as [Hle|]; [|discriminate].
  injection Hat as Hcode. rewrite Hcode.
  split; [lia|]. split.
  - rewrite Hn, Hcode.
    destruct (Z.leb_spec v 0), (Z.eqb_spec v 0); lia || reflexivity.
  - exists codeStr, (String c pat). split; [exact Hs|].
    split; [exact Hv|]. rewrite Hr. unfold strings.HasPrefix.
    cbn [String.prefix].
    destruct (ascii_dec "/" c) as [<-|Hne'].
    + destruct pat; reflexivity.
    + destruct (Ascii.eqb_spec c "/"); [congruence | reflexivity].
Qed.

Lemma firstNonDigit_Some k s i :
  firstNonDigit k s = Some i →
  k ≤ i < k + Z.of_nat (String.length s)
  ∧ ∃ ch, String.get (Z.to_nat (i - k)) s = Some ch
          ∧ isDigit ch = false
  ∧ ∀ j ch', (j < Z.to_nat (i - k))%nat →
             String.get j s = Some ch' → isDigit ch' = true.
Proof.
  revert k. induction s as [|ch s IH]; intros k Hf; [discriminate|].
  cbn [firstNonDigit] in Hf. destruct (isDigit ch) eqn:Hd.
  - destruct (IH (k + 1) Hf) as (Hr & ch0 & Hg & Hnd & Hbefore).
    cbn [String.length]. split; [lia|].
    assert (Hi : Z.to_nat (i - k) = S (Z.to_nat (i - (k + 1)))) by lia.
    exists ch0. rewrite Hi. cbn [String.get].
    split; [exact Hg|]. split; [exact Hnd|].
    intros j ch' Hj Hget. destruct j as [|j].
    + cbn in Hget. injection Hget as <-. exact Hd.
    + cbn [String.get] in Hget. apply (Hbefore j ch'); [lia | exact Hget].
  - injection Hf as <-. cbn [String.length]. split; [lia|].
    exists ch. rewrite Z.sub_diag. cbn.
    split; [reflexivity|]. split; [exact Hd|].
    intros j ch' Hj. lia.
Qed.

(** X3 (status code error).  The status-code-digits error names the
    CODE token and the position of its first byte that is not a
    decimal digit: the byte at that position is no digit and every
    byte before it is one.  A sign is such a byte, so a negative code
    is refused at position 0. *)
Theorem status_code_error line codeStr i :
  parseRedirectMatchLine line = Err (ErrStatusCodeDigits codeStr i) →
  (∃ pat tgt,
      strings.Split (strings.TrimSpace line) " " = [codeStr; pat; tgt])
  ∧ 0 ≤ i < Z.of_nat (String.length codeStr)
  ∧ (∃ ch, String.get (Z.to_nat i) codeStr = Some ch
           ∧ isDigit ch = false)
  ∧ (∀ j ch, (j < Z.to_nat i)%nat →
             String.get j codeStr = Some ch → isDigit ch = true)
  ∧ (∀ rest, codeStr = String "-" rest → i = 0).
Proof.
  unfold parseRedirectMatchLine.
  destruct (strings.Split _ _) as [|cs [|pat [|tgt [|x l]]]];
    try discriminate.
  destruct (firstNonDigit 0 cs) as [i0|] eqn:Hf.
  - intros [= <- <-].
    destruct (firstNonDigit_Some 0 cs i0 Hf) as (Hr & ch & Hg & Hnd & Hb).
    rewrite Z.sub_0_r in Hg, Hb.
    split; [eauto|]. split; [lia|]. split; [eauto|]. split; [exact Hb|].
    intros rest ->. cbn [firstNonDigit] in Hf.
    change (isDigit "-") with false in Hf. congruence.
  - destruct (strconv.Atoi cs); [|discriminate].
    destruct (regexp_Compile pat); [|discriminate].
    destruct (MatchString _ tgt); [discriminate|].
    destruct pat; discriminate.
Qed.

(** X4 (status code range).  On a line of three tokens whose CODE is
    made of digits, the second status-code error -- the failure of
    [Atoi] that the source comments as not expected to happen -- is
    returned exactly when the decimal value of CODE exceeds the largest
    [int]. *)
Theorem status_code_overflow line codeStr pat tgt :
  strings.Split (strings.TrimSpace line) " " = [codeStr; pat; tgt] →
  firstNonDigit 0 codeStr = None →
  ∃ v, strconv.digits 0 codeStr = Some v
       ∧ (parseRedirectMatchLine line = Err (ErrStatusCodeAtoi codeStr)
          ↔ strconv.maxInt < v).
Proof.
  intros Hs Hf.
  destruct (Split_TrimSpace_three _ _ _ _ Hs) as (Hne & _).
  destruct (Atoi_digit_string codeStr Hne Hf) as (v & Hv & H0 & Hat).
  exists v. split; [exact Hv|].
  unfold parseRedirectMatchLine. rewrite Hs, Hf, Hat.
  destruct (Z.leb_spec v strconv.maxInt) as [Hle|Hgt].
  - split; [|lia]. intros Hp. exfalso.
    destruct (regexp_Compile pat); [|discriminate].
    destruct (MatchString _ tgt); [discriminate|].
    destruct pat; discriminate.
  - split; [intros _; exact Hgt | reflexivity].
Qed.

End MoreCompilation.

(** ** More on building the engine *)

Section MoreNew.
Context `{GoStd}.

Lemma parseLines_app_Err good bad rest err :
  Forall (λ line, ∃ rd, parseRedirectMatchLine line = Ok rd) good →
  parseRedirectMatchLine bad = Err err →
  parseLines (good ++ bad :: rest) = Err err.
Proof.
  intros Hgood Hbad. induction Hgood as [|line good [rd Hrd] _ IH].
  - cbn [app parseLines]. rewrite Hbad. reflexivity.
  - cbn [app parseLines]. rewrite Hrd, IH. reflexivity.
Qed.

Lemma parseLines_Err_inv lines err :
  parseLines lines = Err err →
  ∃ good bad rest,
    lines = good ++ bad :: rest
    ∧ Forall (λ line, ∃ rd, parseRedirectMatchLine line = Ok rd) good
    ∧ parseRedirectMatchLine bad = Err err.
Proof.
  induction lines as [|line lines IH]; [discriminate|].
  cbn [parseLines].
  destruct (parseRedirectMatchLine line) as [rd|e|p] eqn:Hl.
  - destruct (parseLines lines) as [rs|e|p] eqn:Hr; try discriminate.
    intros [= ->].
    destruct (IH eq_refl) as (good & bad & rest & -> & Hgood & Hbad).
    exists (line :: good), bad, rest.
    split; [reflexivity|]. split; [|exact Hbad].
    constructor; [eauto | exact Hgood].
  - intros [= ->]. exists [], line, lines. auto.
  - discriminate.
Qed.

(** X5 (rules in order).  An engine that [New] returns has one rule
    per line of [RedirectMatch], in the order of the lines, each the
    rule its line compiles to; the lines and the debug flag of its
    options are those given. *)
Theorem New_rules_in_order opts e :
  New opts = Ok e →
  Forall2 (λ line rd, parseRedirectMatchLine line = Ok rd)
    (RedirectMatch opts) (redirects e)
  ∧ List.length (redirects e) = List.length (RedirectMatch opts)
  ∧ RedirectMatch (options e) = RedirectMatch opts
  ∧ Debug (options e) = Debug opts.
Proof.
  intros Hnew. pose proof Hnew as Hnew'.
  apply New_Ok in Hnew. destruct Hnew as (Hl & _ & _).
  apply parseLines_Ok in Hl.
  split; [exact Hl|]. split.
  - symmetry. eapply Forall2_length. exact Hl.
  - unfold New in Hnew'.
    destruct (parseLines (RedirectMatch opts)); try discriminate.
    injection Hnew' as <-. auto.
Qed.

(** X6 (first error).  [New] fails with an error exactly when some
    line, all lines before it compiling, fails with that error: no
    engine is returned, and the lines after it do not matter. *)
Theorem New_first_error opts err :
  New opts = Err err ↔
  ∃ good bad rest,
    RedirectMatch opts = good ++ bad :: rest
    ∧ Forall (λ line, ∃ rd, parseRedirectMatchLine line = Ok rd) good
    ∧ parseRedirectMatchLine bad = Err err.
Proof.
  unfold New. split.
  - destruct (parseLines (RedirectMatch opts)) as [rs|e|p] eqn:Hl;
      try discriminate.
    intros [= ->]. apply parseLines_Err_inv, Hl.
  - intros (good & bad & rest & -> & Hgood & Hbad).
    rewrite (parseLines_app_Err _ _ _ _ Hgood Hbad). reflexivity.
Qed.

(** X7 (primary subdomain of the engine).  The primary subdomain of an
    engine is empty exactly when the one given is, and ends with a dot
    otherwise; building an engine from the options of an engine gives
    that engine again, so ["www"] and ["www."] configure the same
    engine. *)
Theorem New_primary_subdomain opts e :
  New opts = Ok e →
  (PrimarySubdomain (options e) = EmptyString
   ↔ PrimarySubdomain opts = EmptyString)
  ∧ (PrimarySubdomain (options e) ≠ EmptyString →
     strings.HasSuffix (PrimarySubdomain (options e)) "." = true)
  ∧ New (options e) = Ok e.
Proof.
  intros Hnew. unfold New in Hnew.
  destruct (parseLines (RedirectMatch opts)) as [rs| |] eqn:Hl;
    try discriminate.
  injection Hnew as <-. cbn [options PrimarySubdomain].
  destruct (nonEmpty (PrimarySubdomain opts)) eqn:Hn; cbn [andb].
  - destruct (strings.HasSuffix (PrimarySubdomain opts) ".") eqn:Hs;
      cbn [negb].
    + apply StringFacts.nonEmpty_true in Hn.
      split; [tauto|]. split; [auto|].
      unfold New. cbn [RedirectMatch PrimarySubdomain Debug].
      rewrite Hl, Hs, andb_false_r. reflexivity.
    + apply StringFacts.nonEmpty_true in Hn.
      assert (Hne : PrimarySubdomain opts +:+ "." ≠ EmptyString)
        by (destruct (PrimarySubdomain opts); discriminate).
      split; [tauto|].
      split; [intros _; apply IndexFacts.HasSuffix_append|].
      unfold New. cbn [RedirectMatch PrimarySubdomain Debug].
      rewrite Hl, IndexFacts.HasSuffix_append, andb_false_r.
      reflexivity.
  - apply StringFacts.nonEmpty_false in Hn.
    split; [tauto|]. split; [intros Hne; contradiction|].
    unfold New. cbn [RedirectMatch PrimarySubdomain Debug].
    rewrite Hl, Hn. reflexivity.
Qed.

End MoreNew.

(** ** More on the primary subdomain *)

Section MoreCanonicalization.
Context `{GoStd}.

(** X8 (three ways).  When the root domain of a request is not taken
    for a loopback and its host is some prefix followed by the root
    domain and the port, that prefix decides: empty, the request is
    redirected with status 301 to the primary subdomain; equal to the
    primary subdomain, the rules see the request with its host fields
    set to the root domain and port; anything else, the rules see the
    request as it came. *)
Theorem canonicalization_decision e w r sub :
  let primary := PrimarySubdomain (options e) in
  let hostport := getHost r in
  let root := getDomain hostport +:+ getPort hostport in
  primary ≠ EmptyString →
  domainValidator e (getDomain hostport) = true →
  hostport = sub +:+ root →
  rewrite e w r
  = if String.eqb sub EmptyString then
      HttpRedirect w (http.withHosts r (primary +:+ root))
        (url_String (http.URL (http.withHosts r (primary +:+ root)))) 301
    else if String.eqb sub primary then
      rewriteRules (redirects e) w (http.withHosts r root)
    else rewriteRules (redirects e) w r.
Proof.
  cbn zeta. intros Hp Hv Hh.
  assert (Hs : strings.TrimSuffix (getHost r)
                 (getDomain (getHost r) +:+ getPort (getHost r)) = sub).
  { rewrite Hh at 1. apply StringFacts.TrimSuffix_append. }
  destruct (String.eqb_spec sub EmptyString) as [He|He].
  - apply rewrite_root_domain; [exact Hp | exact Hv | congruence].
  - destruct (String.eqb_spec sub (PrimarySubdomain (options e)))
      as [Hq|Hq].
    + rewrite rewrite_primary_subdomain; [|exact Hp|exact Hv|congruence].
      rewrite Hh at 1. rewrite <- Hq.
      rewrite StringFacts.TrimPrefix_append. reflexivity.
    + unfold rewrite.
      apply StringFacts.nonEmpty_true in Hp. rewrite Hp, Hv, Hs.
      apply String.eqb_neq in He, Hq. rewrite He, Hq. reflexivity.
Qed.

(** X9 (loopback).  An engine that [New] returns leaves alone, whatever
    its primary subdomain, every request whose host -- the port apart
    -- is one of the seven loopback names, and more generally every
    request whose root domain ends with ["localhost"]: the rules see
    the request as it came. *)
Theorem loopback_not_canonicalized opts e w r :
  New opts = Ok e →
  isLoopback (match net.SplitHostPort (getHost r) with
              | Some (host, _) => host
              | None => getHost r
              end) = true
  ∨ strings.HasSuffix (getDomain (getHost r)) localhost = true →
  rewrite e w r = rewriteRules (redirects e) w r.
Proof.
  intros Hnew Hloop. apply New_Ok in Hnew. destruct Hnew as (_ & _ & Hv).
  assert (Hs : strings.HasSuffix (getDomain (getHost r)) localhost = true).
  { destruct Hloop as [Hl|Hl]; [|exact Hl].
    unfold getDomain.
    destruct (net.SplitHostPort (getHost r)) as [[host port]|];
      rewrite Hl; reflexivity. }
  unfold rewrite. rewrite Hv, Hs. cbn [negb].
  destruct (nonEmpty _); reflexivity.
Qed.

(** X10 (frame).  Whatever the engine and the request, the step of the
    primary subdomain either redirects with status 301 or hands the
    rules a request; in both cases the request differs from the one
    that came at most by its two host fields, which are then equal. *)
Theorem canonicalization_frame e w r :
  ∃ r',
    (rewrite e w r
     = HttpRedirect w r' (url_String (http.URL r'))
         http.StatusMovedPermanently
     ∨ rewrite e w r = rewriteRules (redirects e) w r')
    ∧ http.Method r' = http.Method r
    ∧ http.TLS r' = http.TLS r
    ∧ url.Scheme (http.URL r') = url.Scheme (http.URL r)
    ∧ url.Path (http.URL r') = url.Path (http.URL r)
    ∧ url.RawQuery (http.URL r') = url.RawQuery (http.URL r)
    ∧ (r' = r ∨ http.Host r' = url.Host (http.URL r')).
Proof.
  unfold rewrite.
  destruct (nonEmpty (PrimarySubdomain (options e)));
    [|exists r; auto 10].
  destruct (domainValidator e (getDomain (getHost r)));
    [|exists r; auto 10].
  destruct (String.eqb (strings.TrimSuffix _ _) EmptyString).
  - eexists. split; [left; reflexivity|]. cbn. auto 10.
  - destruct (String.eqb (strings.TrimSuffix _ _) _).
    + eexists. split; [right; reflexivity|]. cbn. auto 10.
    + exists r. auto 10.
Qed.

End MoreCanonicalization.

(** ** More on the rule loop *)

Section MoreRuleLoop.
Context `{GoStd}.

(** What a rule was compiled with: it is an internal rewrite exactly
    when its code is not positive. *)
Lemma compiled_noRedirect opts e :
  New opts = Ok e →
  Forall (λ rd, noRedirect rd = (code rd <=? 0)) (redirects e).
Proof.
  intros Hnew. apply New_Ok in Hnew. destruct Hnew as (Hl & _).
  apply parseLines_Ok in Hl.
  induction Hl as [|line rd lines rds Hrd _ IH]; constructor; auto.
  apply parseRedirectMatchLine_Ok in Hrd.
  destruct Hrd as (? & ? & ? & _ & _ & _ & _ & _ & Hn & _). exact Hn.
Qed.

Lemma applyMatch_outcome rd t w r :
  noRedirect rd = (code rd <=? 0) →
  matchAndReplace rd (matchSource rd r) = (t, true) →
  loopOutcome w r (applyMatch rd (matchSource rd r) t w r).
Proof.
  intros Hn Hm. apply matchAndReplace_ok in Hm.
  destruct Hm as (_ & _ & Hne).
  unfold applyMatch.
  destruct (String.eqb_spec t (matchSource rd r)) as [Heq|Hneq].
  { cbn. auto. }
  destruct (noRedirect rd) eqn:Hnr.
  { destruct (url_Parse (http.URL r) t) as [u|err] eqn:Hu; cbn; eauto 10. }
  assert (Hpos : 0 < code rd).
  { symmetry in Hn. apply Z.leb_gt in Hn. exact Hn. }
  destruct (isRelativePattern rd) eqn:Hrel; cbn [negb].
  - cbn. unfold matchSource in Hneq. rewrite Hrel in Hneq. cbn in Hneq.
    auto.
  - cbn. eauto.
Qed.

Lemma rewriteRules_outcome rds w r :
  Forall (λ rd, noRedirect rd = (code rd <=? 0)) rds →
  loopOutcome w r (rewriteRules rds w r).
Proof.
  induction 1 as [|rd rds Hrd _ IH]; [cbn; auto|].
  cbn [rewriteRules].
  destruct (matchAndReplace rd (matchSource rd r)) as [t [|]] eqn:Hm.
  - apply applyMatch_outcome; assumption.
  - exact IH.
Qed.

(** X11 (outcomes of the rule loop).  For the rules of an engine that
    [New] returns, the loop ends in one of four ways.  A redirect by
    [http.Redirect] has the writer and request untouched, a positive
    status code and a target that is neither empty nor the request
    path.  A response written by the engine itself is the one
    [redirectAbs] writes, with a positive code and a target that is not
    empty.  An error is status 421 on the untouched writer.  And the
    next handler gets the untouched writer and the request either as it
    came or with the URL an internal rewrite parsed. *)
Theorem rule_loop_outcome opts e w r :
  New opts = Ok e →
  loopOutcome w r (rewriteRules (redirects e) w r).
Proof.
  intros Hnew. apply rewriteRules_outcome.
  eapply compiled_noRedirect. exact Hnew.
Qed.

(** X17 (what the engine never does).  An engine that [New] returns
    never redirects with a status code that is not positive, answers
    an error with no other status than 421, and never changes the
    method or the TLS state of the request the next handler gets, nor
    writes anything before calling it. *)
Theorem rewrite_never opts e w r :
  New opts = Ok e →
  match rewrite e w r with
  | HttpRedirect w' _ _ c => w' = w ∧ 0 < c
  | Responded w' =>
      ∃ r0 url_ c, w' = redirectAbs w r0 url_ c ∧ 0 < c
                   ∧ http.Method r0 = http.Method r
  | HttpError w' _ c => w' = w ∧ c = 421
  | ServeNext w' r' =>
      w' = w ∧ http.Method r' = http.Method r
      ∧ http.TLS r' = http.TLS r
  end.
Proof.
  intros Hnew. pose proof (compiled_noRedirect opts e Hnew) as Hinv.
  assert (Hloop : ∀ r0,
            http.Method r0 = http.Method r → http.TLS r0 = http.TLS r →
            match rewriteRules (redirects e) w r0 with
            | HttpRedirect w' _ _ c => w' = w ∧ 0 < c
            | Responded w' =>
                ∃ r1 url_ c, w' = redirectAbs w r1 url_ c ∧ 0 < c
                             ∧ http.Method r1 = http.Method r
            | HttpError w' _ c => w' = w ∧ c = 421
            | ServeNext w' r' =>
                w' = w ∧ http.Method r' = http.Method r
                ∧ http.TLS r' = http.TLS r
            end).
  { intros r0 Hm Ht.
    pose proof (rewriteRules_outcome (redirects e) w r0 Hinv) as Ho.
    destruct (rewriteRules (redirects e) w r0) as [w' r' u c|w'|w' m c|w' r'];
      cbn in Ho.
    - tauto.
    - destruct Ho as (u & c & -> & Hc & _). eauto 10.
    - exact Ho.
    - destruct Ho as (-> & [->|(t & u & _ & ->)]); cbn; auto. }
  unfold rewrite.
  destruct (nonEmpty (PrimarySubdomain (options e)));
    [|apply Hloop; reflexivity].
  destruct (domainValidator e (getDomain (getHost r)));
    [|apply Hloop; reflexivity].
  destruct (String.eqb (strings.TrimSuffix _ _) EmptyString).
  - split; [reflexivity|]. unfold http.StatusMovedPermanently. lia.
  - destruct (String.eqb (strings.TrimSuffix _ _) _);
      apply Hloop; reflexivity.
Qed.

(** The next handler gets the host and method that the rule loop
    got. *)
Lemma rewriteRules_ServeNext rds w r w' r' :
  rewriteRules rds w r = ServeNext w' r' →
  w' = w ∧ http.Host r' = http.Host r ∧ http.Method r' = http.Method r
  ∧ http.TLS r' = http.TLS r.
Proof.
  induction rds as [|rd rds IH].
  - intros [= <- <-]. auto.
  - cbn [rewriteRules].
    destruct (matchAndReplace rd (matchSource rd r)) as [t [|]];
      [|exact IH].
    unfold applyMatch.
    destruct (String.eqb t (matchSource rd r)); [intros [= <- <-]; auto|].
    destruct (noRedirect rd).
    + destruct (url_Parse (http.URL r) t); [|discriminate].
      intros [= <- <-]. cbn. auto.
    + destruct (negb (isRelativePattern rd)); discriminate.
Qed.

End MoreRuleLoop.

(** ** Hosts and ports *)

Section HostPort.
Context `{GoStd}.

Lemma SplitHostPort_plain host port :
  plain host → plain port →
  net.SplitHostPort (host +:+ ":" +:+ port) = Some (host, port).
Proof.
  intros (Hc & Hl & Hr) (Pc & Pl & Pr).
  assert (Hlb : strings.count "[" (host +:+ ":" +:+ port) = 0%nat).
  { rewrite !IndexFacts.count_append, Hl, Pl. reflexivity. }
  assert (Hrb : strings.count "]" (host +:+ ":" +:+ port) = 0%nat).
  { rewrite !IndexFacts.count_append, Hr, Pr. reflexivity. }
  unfold net.SplitHostPort.
  change (host +:+ ":" +:+ port) with (host +:+ String ":" port) in *.
  rewrite (IndexFacts.LastIndexByte_last host ":" port Pc).
  destruct (Z.ltb_spec (Z.of_nat (String.length host)) 0); [lia|].
  assert (Hb : match host +:+ String ":" port with
               | String c _ => Ascii.eqb c "["
               | EmptyString => false
               end = false).
  { destruct host as [|c host]; [reflexivity|].
    rewrite StringFacts.append_cons. cbn [strings.count] in Hl.
    destruct (Ascii.eqb c "["); [discriminate | reflexivity]. }
  rewrite Hb, IndexFacts.upto_append.
  rewrite (IndexFacts.IndexByte_absent host ":" Hc). cbn [Z.leb Z.compare].
  unfold strings.from at 1 2. change (Z.to_nat 0) with 0%nat.
  assert (Hd0 : ∀ s, strings.drop 0 s = s) by (intros []; reflexivity).
  rewrite !Hd0.
  rewrite (IndexFacts.IndexByte_absent _ "[" Hlb).
  rewrite (IndexFacts.IndexByte_absent _ "]" Hrb). cbn [Z.leb Z.compare].
  f_equal. f_equal.
  unfold strings.from.
  replace (Z.to_nat (Z.of_nat (String.length host) + 1))
    with (S (String.length host)) by lia.
  clear. induction host as [|c host IH]; [reflexivity|].
  rewrite StringFacts.append_cons. exact IH.
Qed.

Lemma SplitHostPort_no_port host :
  strings.count ":" host = 0%nat → net.SplitHostPort host = None.
Proof.
  intros Hc. unfold net.SplitHostPort.
  rewrite (IndexFacts.LastIndexByte_absent host ":" Hc). reflexivity.
Qed.

(** X12 (host and port).  For a host and a port free of colons and
    brackets: the root domain of ["host:port"] is the root domain of
    the host alone, so the port never changes it; a host without a port
    has the empty port suffix; and the port suffix of ["host:port"] is
    the colon and the port, unless the host is empty, in which case it
    is empty: the colon must not be the first byte. *)
Theorem host_and_port host port :
  plain host → plain port →
  getDomain (host +:+ ":" +:+ port) = getDomain host
  ∧ getPort host = EmptyString
  ∧ getPort (host +:+ ":" +:+ port)
    = (if nonEmpty host then ":" +:+ port else EmptyString)
  ∧ (host ≠ EmptyString →
     host +:+ ":" +:+ port
     = host +:+ getPort (host +:+ ":" +:+ port)).
Proof.
  intros Hh Hp. pose proof Hh as (Hc & _).
  assert (Hport : getPort (host +:+ ":" +:+ port)
                  = (if nonEmpty host then ":" +:+ port else EmptyString)).
  { unfold getPort.
    change (host +:+ ":" +:+ port) with (host +:+ String ":" port).
    rewrite (IndexFacts.IndexByte_first host ":" port Hc).
    destruct host as [|c host]; [reflexivity|].
    cbn [nonEmpty String.eqb negb].
    destruct (Z.ltb_spec 0 (Z.of_nat (String.length (String c host))));
      [|cbn [String.length] in *; lia].
    apply IndexFacts.from_append. }
  split; [|split; [|split]].
  - unfold getDomain.
    rewrite (SplitHostPort_plain host port Hh Hp).
    rewrite (SplitHostPort_no_port host Hc). reflexivity.
  - unfold getPort. rewrite (IndexFacts.IndexByte_absent host ":" Hc).
    reflexivity.
  - exact Hport.
  - intros Hne. rewrite Hport.
    apply StringFacts.nonEmpty_true in Hne. rewrite Hne. reflexivity.
Qed.

End HostPort.

(** ** Loading *)

Section MoreLoading.
Variable File : Type.
Variable os_Open : string -> File + string.
Variable yaml_Decode : File -> Options + string.
Variable json_Decode : File -> Options + string.

Lemma fileExt_stem stem suffix :
  strings.count "." suffix = 0%nat → suffix ≠ EmptyString →
  fileExt (stem +:+ "." +:+ suffix)
  = if Nat.leb 2 (String.length stem) then "." +:+ suffix else ".yml".
Proof.
  intros Hc Hne. unfold fileExt.
  change (stem +:+ "." +:+ suffix) with (stem +:+ String "." suffix).
  rewrite (IndexFacts.LastIndexByte_last stem "." suffix Hc).
  rewrite IndexFacts.length_append. cbn [String.length].
  assert (Hs : (0 < String.length suffix)%nat)
    by (destruct suffix; [contradiction | cbn; lia]).
  destruct (Nat.leb_spec 2 (String.length stem)).
  - destruct (Z.ltb_spec 1 (Z.of_nat (String.length stem))); [|lia].
    destruct (Z.ltb_spec (Z.of_nat (String.length stem))
                (Z.of_nat (String.length stem
                           + S (String.length suffix)) - 1)); [|lia].
    cbn [andb]. apply IndexFacts.from_append.
  - destruct (Z.ltb_spec 1 (Z.of_nat (String.length stem))); [lia|].
    reflexivity.
Qed.

(** X13 (file extension).  [LoadOptions] returns the error of
    [os.Open] whatever the name.  Of a file that opens and whose name
    is a stem, a dot and a suffix without dot: when the stem has fewer
    than two bytes the suffix is not looked at and the file is read as
    YAML; otherwise it is read as JSON for the suffix [json], as YAML
    for [yaml] and [yml], and refused with the extension error for
    every other suffix. *)
Theorem LoadOptions_by_extension stem suffix :
  let filename := stem +:+ "." +:+ suffix in
  let lift (filename : string) (d : Options + string) :=
    match d with
    | inl opts => inl opts
    | inr err => inr (ErrDecode filename err)
    end in
  strings.count "." suffix = 0%nat → suffix ≠ EmptyString →
  (∀ err, os_Open filename = inr err →
          LoadOptions File os_Open yaml_Decode json_Decode filename
          = inr (ErrOpen err))
  ∧ (∀ f, os_Open filename = inl f →
          LoadOptions File os_Open yaml_Decode json_Decode filename
          = if Nat.leb 2 (String.length stem) then
              if String.eqb suffix "yaml" || String.eqb suffix "yml"
              then lift filename (yaml_Decode f)
              else if String.eqb suffix "json"
                   then lift filename (json_Decode f)
                   else inr (ErrExtension filename)
            else lift filename (yaml_Decode f)).
Proof.
  cbn zeta. intros Hc Hne. split.
  - intros err Ho. unfold LoadOptions. rewrite Ho. reflexivity.
  - intros f Ho. unfold LoadOptions.
    rewrite Ho, (fileExt_stem stem suffix Hc Hne).
    destruct (Nat.leb 2 (String.length stem)).
    + change ("." +:+ suffix) with (String "." suffix).
      cbn [String.eqb]. rewrite Ascii.eqb_refl.
      destruct (String.eqb suffix "yaml" || String.eqb suffix "yml").
      * destruct (yaml_Decode f); reflexivity.
      * destruct (String.eqb suffix "json").
        -- destruct (json_Decode f); reflexivity.
        -- reflexivity.
    + cbn. destruct (yaml_Decode f); reflexivity.
Qed.

End MoreLoading.

(** ** The router of the example *)

Section RouterFacts.
Context `{GoStd}.
Variable Handler : Type.

Lemma ServeHTTP_root (router : example.Router Handler) r :
  http.Host r = example.rootDomain Handler router →
  example.ServeHTTP Handler router r
  = example.ServedBy Handler (example.ServeMux Handler router).
Proof.
  intros Hh. unfold example.ServeHTTP.
  rewrite Hh, IndexFacts.TrimSuffix_self. reflexivity.
Qed.




(** X16 (engine, then router).  When the engine lets through to the
    router a request that came for the primary subdomain of the
    router's root domain, the router serves it with the root mux: the
    subdomain router is bypassed. *)
Theorem primary_subdomain_reaches_root_mux
    e (router : example.Router Handler) w r w' r' :
  let primary := PrimarySubdomain (options e) in
  let hostport := getHost r in
  let root := getDomain hostport +:+ getPort hostport in
  primary ≠ EmptyString →
  domainValidator e (getDomain hostport) = true →
  hostport = primary +:+ root →
  example.rootDomain Handler router = root →
  rewrite e w r = ServeNext w' r' →
  http.Host r' = root
  ∧ example.ServeHTTP Handler router r'
    = example.ServedBy Handler (example.ServeMux Handler router).
Proof.
  cbn zeta. intros Hp Hv Hh Hroot Hrw.
  rewrite rewrite_primary_subdomain in Hrw;
    [|exact Hp|exact Hv|rewrite Hh at 1; apply StringFacts.TrimSuffix_append].
  apply rewriteRules_ServeNext in Hrw. destruct Hrw as (_ & Hhost & _).
  cbn in Hhost. rewrite Hh in Hhost at 1.
  rewrite StringFacts.TrimPrefix_append in Hhost.
  split; [exact Hhost|].
  apply ServeHTTP_root. congruence.
Qed.

End RouterFacts.

(** ** Further scenarios, evaluated *)

Section FurtherScenarios.
Local Existing Instance Sample.std.

Local Ltac run := reflexivity.

(** X1, witness: a rule line of the README with spaces around it. *)
Lemma tokens_shape_witness :
  strings.TrimSpace "  301 /seo/(.*) /$1 "
  = "301" +:+ " " +:+ "/seo/(.*)" +:+ " " +:+ "/$1"
  ∧ Forall (λ p, strings.count " " p = 0%nat) ["301"; "/seo/(.*)"; "/$1"].
Proof.
  destruct (tokens_shape "  301 /seo/(.*) /$1 " "301" "/seo/(.*)" "/$1")
    as (_ & _ & Hno & Hjoin); [run|].
  exact (conj Hjoin Hno).
Defined.

(** X2, witness: the internal rewrite of the example has code 0. *)
Lemma compiled_code_witness :
  let rd := Scenario.rule "0 /(.*)\.(json|xml) /$1?format=$2" in
  0 ≤ code rd ≤ strconv.maxInt ∧ noRedirect rd = (code rd =? 0).
Proof.
  cbn zeta.
  destruct (compiled_code (H:=Sample.std)
              "0 /(.*)\.(json|xml) /$1?format=$2"
              (Scenario.rule "0 /(.*)\.(json|xml) /$1?format=$2"))
    as (Hr & Hn & _); [run|].
  exact (conj Hr Hn).
Defined.

(** X3, witness: the third byte of [30x] is no digit. *)
Lemma status_code_error_witness :
  parseRedirectMatchLine "30x /a /b" = Err (ErrStatusCodeDigits "30x" 2)
  ∧ 0 ≤ 2 < Z.of_nat (String.length "30x")
  ∧ ∃ ch, String.get (Z.to_nat 2) "30x" = Some ch ∧ isDigit ch = false.
Proof.
  split; [run|].
  destruct (status_code_error (H:=Sample.std) "30x /a /b" "30x" 2)
    as (_ & Hr & Hch & _); [run|].
  exact (conj Hr Hch).
Defined.

(** X4, witness: the largest [int] plus one. *)
Lemma status_code_overflow_witness :
  parseRedirectMatchLine "9223372036854775808 /a /b"
  = Err (ErrStatusCodeAtoi "9223372036854775808").
Proof.
  destruct (status_code_overflow (H:=Sample.std)
              "9223372036854775808 /a /b" "9223372036854775808" "/a" "/b")
    as (v & Hv & Hiff); [run | run |].
  apply Hiff. vm_compute in Hv. injection Hv as <-. reflexivity.
Defined.

(** X5, witness: the engine of the README has its three rules. *)
Lemma New_rules_in_order_witness :
  List.length (redirects (Scenario.engine Scenario.readme "www")) = 3%nat
  ∧ Forall2 (λ line rd, parseRedirectMatchLine line = Ok rd)
      Scenario.readme (redirects (Scenario.engine Scenario.readme "www")).
Proof.
  destruct (New_rules_in_order (H:=Sample.std)
              (Scenario.options Scenario.readme "www")
              (Scenario.engine Scenario.readme "www"))
    as (Hall & Hlen & _); [run|].
  exact (conj Hlen Hall).
Defined.

(** X6, witness: the second line fails, the third would panic. *)
Lemma New_first_error_witness :
  New (Scenario.options ["301 /a /b"; "30x /a /b"; "301 (( /b"] "www")
  = Err (ErrStatusCodeDigits "30x" 2).
Proof.
  apply (proj2 (New_first_error (H:=Sample.std) _ _)).
  exists ["301 /a /b"], "30x /a /b", ["301 (( /b"].
  split; [run|]. split; [|run].
  constructor; [|constructor].
  exists (Scenario.rule "301 /a /b"). run.
Defined.

(** X7, witness: the options of the engine built with ["www"] hold
    ["www."] and build the same engine. *)
Lemma New_primary_subdomain_witness :
  PrimarySubdomain (options (Scenario.engine Scenario.readme "www"))
  = "www."
  ∧ New (options (Scenario.engine Scenario.readme "www"))
    = Ok (Scenario.engine Scenario.readme "www").
Proof.
  split; [run|].
  apply (New_primary_subdomain (H:=Sample.std)
           (Scenario.options Scenario.readme "www")). run.
Defined.

(** X8, witness: a request for another subdomain reaches the rules as
    it came. *)
Lemma canonicalization_decision_witness :
  let e := Scenario.engine Scenario.readme "www" in
  let r := Scenario.request "GET" "test.mydomain.com:8080" "/seo/about" in
  rewrite e Scenario.w0 r = rewriteRules (redirects e) Scenario.w0 r.
Proof.
  cbn zeta.
  pose proof (canonicalization_decision (H:=Sample.std)
                (Scenario.engine Scenario.readme "www") Scenario.w0
                (Scenario.request "GET" "test.mydomain.com:8080"
                   "/seo/about") "test.") as Hd.
  cbn zeta in Hd. refine (Hd _ _ _); [discriminate | run | run].
Defined.

(** X9, witness: a request for 127.0.0.1. *)
Lemma loopback_not_canonicalized_witness :
  let e := Scenario.engine Scenario.readme "www" in
  let r := Scenario.request "GET" "127.0.0.1:8080" "/about" in
  rewrite e Scenario.w0 r = rewriteRules (redirects e) Scenario.w0 r.
Proof.
  cbn zeta.
  apply (loopback_not_canonicalized (H:=Sample.std)
           (Scenario.options Scenario.readme "www")); [run|].
  left. run.
Defined.

(** X11, witness: the first rule of the README redirects. *)
Lemma rule_loop_outcome_witness :
  let r := Scenario.request "GET" "localhost:8080" "/seo/about" in
  rewriteRules (redirects (Scenario.engine Scenario.readme "www"))
    Scenario.w0 r
  = HttpRedirect Scenario.w0 r "/about" 301
  ∧ loopOutcome Scenario.w0 r (HttpRedirect Scenario.w0 r "/about" 301).
Proof.
  cbn zeta. split; [run|].
  exact (rule_loop_outcome (H:=Sample.std)
           (Scenario.options Scenario.readme "www")
           (Scenario.engine Scenario.readme "www") Scenario.w0
           (Scenario.request "GET" "localhost:8080" "/seo/about")
           eq_refl).
Defined.

(** X12, witness: the host and port of the scenarios. *)
Lemma host_and_port_witness :
  getDomain "mydomain.com:8080" = getDomain "mydomain.com"
  ∧ getPort "mydomain.com:8080" = ":8080".
Proof.
  destruct (host_and_port (H:=Sample.std) "mydomain.com" "8080")
    as (Hd & _ & Hp & _); [repeat split; run | repeat split; run |].
  exact (conj Hd Hp).
Defined.

(** X13, witness: [a.json] is read as YAML, [redirects.json] as JSON,
    and [rules.txt] is refused. *)
Lemma LoadOptions_by_extension_witness :
  let load :=
    LoadOptions string
      (Further.open ["a.json"; "redirects.json"; "rules.txt"])
      (Further.decodeAs "yaml") (Further.decodeAs "json") in
  load "a.json" = inl (mkOptions [] "yaml" false)
  ∧ load "redirects.json" = inl (mkOptions [] "json" false)
  ∧ load "rules.txt" = inr (ErrExtension "rules.txt").
Proof.
  cbn zeta.
  pose proof (λ stem suffix,
                LoadOptions_by_extension string
                  (Further.open ["a.json"; "redirects.json"; "rules.txt"])
                  (Further.decodeAs "yaml") (Further.decodeAs "json")
                  stem suffix) as Hl.
  cbn zeta in Hl.
  split; [|split].
  - refine (proj2 (Hl "a" "json" _ _) "a.json" _); [run | discriminate | run].
  - refine (proj2 (Hl "redirects" "json" _ _) "redirects.json" _);
      [run | discriminate | run].
  - refine (proj2 (Hl "rules" "txt" _ _) "rules.txt" _);
      [run | discriminate | run].
Defined.



(** X16, witness: a request for [www] that no rule matches. *)
Lemma primary_subdomain_reaches_root_mux_witness :
  let r := Scenario.request "GET" "www.mydomain.com:8080" "/about" in
  let r' := http.withHosts r "mydomain.com:8080" in
  rewrite (Scenario.engine Scenario.readme "www") Scenario.w0 r
  = ServeNext Scenario.w0 r'
  ∧ example.ServeHTTP string Further.router r'
    = example.ServedBy string "root".
Proof.
  cbn zeta. split; [run|].
  refine (proj2 (primary_subdomain_reaches_root_mux (H:=Sample.std) string
                   (Scenario.engine Scenario.readme "www") Further.router
                   Scenario.w0
                   (Scenario.request "GET" "www.mydomain.com:8080" "/about")
                   Scenario.w0 _ _ _ _ _ _));
    [discriminate | run | run | run | run].
Defined.

(** X17, witness: the redirect of the bare root domain. *)
Lemma rewrite_never_witness :
  match rewrite (Scenario.engine Scenario.readme "www") Scenario.w0
          (Scenario.request "GET" "mydomain.com:8080" "/about") with
  | HttpRedirect w' _ _ c => w' = Scenario.w0 ∧ 0 < c
  | _ => False
  end.
Proof.
  exact (rewrite_never (H:=Sample.std)
           (Scenario.options Scenario.readme "www")
           (Scenario.engine Scenario.readme "www") Scenario.w0
           (Scenario.request "GET" "mydomain.com:8080" "/about") eq_refl).
Defined.

End FurtherScenarios.
